(** * The workflow engine of [tdd_helper.py]

    A shallow embedding of the parts of [tdd_helper.py] that hold state:
    the project registry ([QToolsProject]), the per-file record
    ([WorkflowTracker]), loading and saving of [.workflow_status.json],
    the scheduler ([get_next_task]), the six recording methods of
    [QToolsWorkflowHelper] and the shell commands of [QToolsPrompt] that
    drive them.

    Conventions of the embedding.
    - A Python [dict] is an association list in insertion order (the
      order [items()] iterates in); keys of a dict are pairwise distinct.
    - Python exceptions are values of [exn]; a computation that may raise
      has type [result A].  In every command modelled here a raise happens
      before the first mutation of that command, so the state after a
      raise is the state before the call.
    - [datetime.datetime.now().isoformat()] is the argument [now] of a
      method, which reads the clock once; start-up reads it once for each
      record it creates and takes a [clock], the sequence of its readings.
    - Record fields carry the types the dataclass declares for them.
    - The state file is modelled after [json.load]: either text that the
      json module refuses, or the dict of dicts it returns.  The loader is
      given twice: on files whose values have the declared types
      ([load_items]), which is what the program writes and what the
      methods work on, and on arbitrary JSON ([load_state_file]), where
      the checks the loader makes and those it does not make show.
    - Colours and instruction texts are presentation and are left out; of
      what is printed, the one-line refusals of the shell commands are
      kept, as the list of messages a command returns.
    - A character of a string is a Unicode code point below 256; text
      with other characters is outside the model. *)

From Stdlib Require Import List String Ascii Bool Arith Lia Relations.
Import ListNotations.
Open Scope string_scope.
Open Scope list_scope.

Set Implicit Arguments.

(** ** Enumerations *)

Inductive FileStatus : Type :=
| FS_PENDING
| FS_TESTS_WRITTEN
| FS_TESTS_REVIEWED
| FS_CODE_IMPLEMENTED
| FS_CODE_REVIEWED
| FS_COMPLETED.

Inductive ScenarioLevel : Type :=
| BASIC
| INTERMEDIATE
| ADVANCED.

Inductive WorkflowState : Type :=
| PENDING
| ISSUE_CREATED
| TESTS_PROVIDED
| TESTS_REVIEWED
| IMPLEMENTATION_PROVIDED
| IMPLEMENTATION_REVIEWED
| DOCUMENTATION_PROVIDED
| DOCUMENTATION_REVIEWED
| EXAMPLES_PROVIDED
| EXAMPLES_REVIEWED
| COMPLETED.

Definition WorkflowState_eqb (a b : WorkflowState) : bool :=
  match a, b with
  | PENDING, PENDING
  | ISSUE_CREATED, ISSUE_CREATED
  | TESTS_PROVIDED, TESTS_PROVIDED
  | TESTS_REVIEWED, TESTS_REVIEWED
  | IMPLEMENTATION_PROVIDED, IMPLEMENTATION_PROVIDED
  | IMPLEMENTATION_REVIEWED, IMPLEMENTATION_REVIEWED
  | DOCUMENTATION_PROVIDED, DOCUMENTATION_PROVIDED
  | DOCUMENTATION_REVIEWED, DOCUMENTATION_REVIEWED
  | EXAMPLES_PROVIDED, EXAMPLES_PROVIDED
  | EXAMPLES_REVIEWED, EXAMPLES_REVIEWED
  | COMPLETED, COMPLETED => true
  | _, _ => false
  end.

(** [FileStatus.value], [ScenarioLevel.value] and [WorkflowState.name]. *)

Definition FileStatus_value (s : FileStatus) : string :=
  match s with
  | FS_PENDING => "pending"
  | FS_TESTS_WRITTEN => "tests_written"
  | FS_TESTS_REVIEWED => "tests_reviewed"
  | FS_CODE_IMPLEMENTED => "code_implemented"
  | FS_CODE_REVIEWED => "code_reviewed"
  | FS_COMPLETED => "completed"
  end.

Definition ScenarioLevel_value (s : ScenarioLevel) : string :=
  match s with
  | BASIC => "basic"
  | INTERMEDIATE => "intermediate"
  | ADVANCED => "advanced"
  end.

Definition WorkflowState_name (s : WorkflowState) : string :=
  match s with
  | PENDING => "PENDING"
  | ISSUE_CREATED => "ISSUE_CREATED"
  | TESTS_PROVIDED => "TESTS_PROVIDED"
  | TESTS_REVIEWED => "TESTS_REVIEWED"
  | IMPLEMENTATION_PROVIDED => "IMPLEMENTATION_PROVIDED"
  | IMPLEMENTATION_REVIEWED => "IMPLEMENTATION_REVIEWED"
  | DOCUMENTATION_PROVIDED => "DOCUMENTATION_PROVIDED"
  | DOCUMENTATION_REVIEWED => "DOCUMENTATION_REVIEWED"
  | EXAMPLES_PROVIDED => "EXAMPLES_PROVIDED"
  | EXAMPLES_REVIEWED => "EXAMPLES_REVIEWED"
  | COMPLETED => "COMPLETED"
  end.

Definition all_FileStatus : list FileStatus :=
  [FS_PENDING; FS_TESTS_WRITTEN; FS_TESTS_REVIEWED; FS_CODE_IMPLEMENTED;
   FS_CODE_REVIEWED; FS_COMPLETED].

Definition all_ScenarioLevel : list ScenarioLevel :=
  [BASIC; INTERMEDIATE; ADVANCED].

Definition all_WorkflowState : list WorkflowState :=
  [PENDING; ISSUE_CREATED; TESTS_PROVIDED; TESTS_REVIEWED;
   IMPLEMENTATION_PROVIDED; IMPLEMENTATION_REVIEWED; DOCUMENTATION_PROVIDED;
   DOCUMENTATION_REVIEWED; EXAMPLES_PROVIDED; EXAMPLES_REVIEWED; COMPLETED].

(** ** JSON values *)

(** What [json.load] returns: [None], a bool, a number (kept as its
    literal), a str, a list or a dict. *)
Inductive json : Type :=
| JNull
| JBool (b : bool)
| JNumber (literal : string)
| JString (s : string)
| JArray (items : list json)
| JObject (members : list (string * json)).

(** ** Exceptions and results *)

Inductive exn : Type :=
| KeyError (key : string)
| ValueError (value : string)
| JSONDecodeError
| AttributeError (attribute : string)
| KeyErrorOf (key : json)
| ValueErrorOf (value : json)
| TypeError (message : string).

Inductive result (A : Type) : Type :=
| Ok (a : A)
| Raise (e : exn).

Arguments Ok {A} a.
Arguments Raise {A} e.

Definition bind {A B : Type} (r : result A) (k : A -> result B) : result B :=
  match r with
  | Ok a => k a
  | Raise e => Raise e
  end.

Notation "x <- r ;; k" := (bind r (fun x => k))
  (at level 61, r at next level, right associativity).

(** Enum lookup by value, [FileStatus(v)] and [ScenarioLevel(v)], raises
    [ValueError]; lookup by name, [WorkflowState[n]], raises [KeyError]. *)

Definition FileStatus_of_value (v : string) : result FileStatus :=
  match find (fun s => String.eqb (FileStatus_value s) v) all_FileStatus with
  | Some s => Ok s
  | None => Raise (ValueError v)
  end.

Definition ScenarioLevel_of_value (v : string) : result ScenarioLevel :=
  match find (fun s => String.eqb (ScenarioLevel_value s) v)
             all_ScenarioLevel with
  | Some s => Ok s
  | None => Raise (ValueError v)
  end.

Definition WorkflowState_of_name (n : string) : result WorkflowState :=
  match find (fun s => String.eqb (WorkflowState_name s) n)
             all_WorkflowState with
  | Some s => Ok s
  | None => Raise (KeyError n)
  end.

(** ** Records *)

Record WorkflowTracker : Type := mkTracker {
  source_file : string;
  test_file : string;
  example_file : option string;
  status : FileStatus;
  scenario : ScenarioLevel;
  workflow_state : WorkflowState;
  issue_number : option string;
  last_updated : string;
  notes : list string;
  dependencies : list string;
  acceptance_criteria : list string;
  test_review_comments : list string;
  implementation_review_comments : list string;
  documentation_review_comments : list string;
  examples_review_comments : list string
}.

(** One value of the dict [QToolsProject.files]. *)

Record FileInfo : Type := mkInfo {
  info_test_file : string;
  info_example_file : option string;
  info_scenario : ScenarioLevel;
  info_dependencies : list string;
  info_description : string
}.

(** ** Dicts with string keys *)

Section Dict.
Variable V : Type.

Definition dict : Type := list (string * V).

Definition keys (d : dict) : list string := map fst d.

(** [d.get(k)]; [d[k]] is [getitem], which raises on a missing key. *)
Fixpoint get (k : string) (d : dict) : option V :=
  match d with
  | [] => None
  | (k', v) :: rest => if String.eqb k' k then Some v else get k rest
  end.

Definition getitem (k : string) (d : dict) : result V :=
  match get k d with
  | Some v => Ok v
  | None => Raise (KeyError k)
  end.

(** Mutation of the object stored under [k]: the entry keeps its place. *)
Fixpoint alter (f : V -> V) (k : string) (d : dict) : dict :=
  match d with
  | [] => []
  | (k', v) :: rest =>
      if String.eqb k' k then (k', f v) :: rest
      else (k', v) :: alter f k rest
  end.
End Dict.

Arguments get {V} k d.
Arguments getitem {V} k d.
Arguments alter {V} f k d.
Arguments keys {V} d.

(** ** The registry: [QToolsProject.__init__] *)

Definition QToolsProject_files : dict FileInfo :=
  [ ("src/utils/types.rs",
     mkInfo "tests/utils/types_tests.rs" (Some "examples/types_usage.rs")
            BASIC []
            "Core data structures for time series and market data");
    ("src/signal/weak_signal.rs",
     mkInfo "tests/signal/weak_signal_tests.rs"
            (Some "examples/signal_analysis.rs")
            BASIC ["src/utils/types.rs"]
            "Weak signal detection and filtering");
    ("src/pattern/recognition.rs",
     mkInfo "tests/pattern/recognition_tests.rs"
            (Some "examples/pattern_detection.rs")
            BASIC ["src/utils/types.rs"]
            "Basic pattern recognition algorithms");
    ("src/quantum/state.rs",
     mkInfo "tests/quantum/state_tests.rs" (Some "examples/quantum_state.rs")
            INTERMEDIATE ["src/utils/types.rs"; "src/signal/weak_signal.rs"]
            "Quantum state representation and analysis");
    ("src/sync/phase.rs",
     mkInfo "tests/sync/phase_tests.rs" (Some "examples/phase_sync.rs")
            INTERMEDIATE ["src/quantum/state.rs"]
            "Phase synchronization detection");
    ("src/network/kuramoto.rs",
     mkInfo "tests/network/kuramoto_tests.rs"
            (Some "examples/kuramoto_model.rs")
            ADVANCED ["src/quantum/state.rs"; "src/sync/phase.rs"]
            "Kuramoto model implementation for network synchronization");
    ("src/network/topology.rs",
     mkInfo "tests/network/topology_tests.rs"
            (Some "examples/network_topology.rs")
            ADVANCED ["src/network/kuramoto.rs"]
            "Network topology analysis");
    ("src/quantum/entanglement.rs",
     mkInfo "tests/quantum/entanglement_tests.rs"
            (Some "examples/entanglement.rs")
            ADVANCED ["src/quantum/state.rs"]
            "Quantum entanglement measures") ].

(** ** The scheduler: [get_next_task] and [get_current_file] *)

Definition is_completed (t : WorkflowTracker) : bool :=
  WorkflowState_eqb (workflow_state t) COMPLETED.

(** [all(self.workflow_status[dep].workflow_state == COMPLETED
         for dep in tracker.dependencies)]: the generator is consumed
    left to right and [all] stops at the first false element, so a
    missing key raises only if it is met before an incomplete one. *)
Fixpoint deps_completed (ws : dict WorkflowTracker) (deps : list string)
  : result bool :=
  match deps with
  | [] => Ok true
  | dep :: rest =>
      t <- getitem dep ws ;;
      if is_completed t then deps_completed ws rest else Ok false
  end.

(** The loop of [get_next_task] over the remaining items [todo] of
    [self.workflow_status]. *)
Fixpoint next_task_from (ws todo : dict WorkflowTracker)
  : result (option (string * list string)) :=
  match todo with
  | [] => Ok None
  | (source, tracker) :: rest =>
      if negb (is_completed tracker) then
        ok <- deps_completed ws (dependencies tracker) ;;
        if ok then Ok (Some (source, dependencies tracker))
        else next_task_from ws rest
      else next_task_from ws rest
  end.

Definition get_next_task (ws : dict WorkflowTracker)
  : result (option (string * list string)) :=
  next_task_from ws ws.

Definition get_current_file (ws : dict WorkflowTracker)
  : result (option string) :=
  next_task <- get_next_task ws ;;
  Ok (match next_task with
      | Some (source, _) => Some source
      | None => None
      end).

(** ** The state file *)

(** One value of the JSON object written by [save_workflow_status]:
    [asdict(v)] with the three enum fields replaced by strings. *)
Record RawTracker : Type := mkRaw {
  raw_source_file : string;
  raw_test_file : string;
  raw_example_file : option string;
  raw_status : string;
  raw_scenario : string;
  raw_workflow_state : string;
  raw_issue_number : option string;
  raw_last_updated : string;
  raw_notes : list string;
  raw_dependencies : list string;
  raw_acceptance_criteria : list string;
  raw_test_review_comments : list string;
  raw_implementation_review_comments : list string;
  raw_documentation_review_comments : list string;
  raw_examples_review_comments : list string
}.

(** What [json.load] makes of the file: it raises on text that is not
    JSON, and returns the dict otherwise. *)
Inductive FileContent : Type :=
| Unparseable
| Parsed (data : dict RawTracker).

(** ** The helper object *)

(** [workflow_file] holds what is stored at the path
    [project_root / ".workflow_status.json"]: [None] when the file does
    not exist. *)
Record Helper : Type := mkHelper {
  project : dict FileInfo;
  workflow_file : option FileContent;
  workflow_status : dict WorkflowTracker
}.

Definition with_status (ws : dict WorkflowTracker) (h : Helper) : Helper :=
  mkHelper (project h) (workflow_file h) ws.

Definition with_file (f : option FileContent) (h : Helper) : Helper :=
  mkHelper (project h) f (workflow_status h).

(** Field assignments on a tracker. *)

Definition set_status (s : FileStatus) (t : WorkflowTracker) :=
  mkTracker (source_file t) (test_file t) (example_file t) s (scenario t)
    (workflow_state t) (issue_number t) (last_updated t) (notes t)
    (dependencies t) (acceptance_criteria t) (test_review_comments t)
    (implementation_review_comments t) (documentation_review_comments t)
    (examples_review_comments t).

Definition set_workflow_state (w : WorkflowState) (t : WorkflowTracker) :=
  mkTracker (source_file t) (test_file t) (example_file t) (status t)
    (scenario t) w (issue_number t) (last_updated t) (notes t)
    (dependencies t) (acceptance_criteria t) (test_review_comments t)
    (implementation_review_comments t) (documentation_review_comments t)
    (examples_review_comments t).

Definition set_issue_number (i : option string) (t : WorkflowTracker) :=
  mkTracker (source_file t) (test_file t) (example_file t) (status t)
    (scenario t) (workflow_state t) i (last_updated t) (notes t)
    (dependencies t) (acceptance_criteria t) (test_review_comments t)
    (implementation_review_comments t) (documentation_review_comments t)
    (examples_review_comments t).

Definition set_last_updated (now : string) (t : WorkflowTracker) :=
  mkTracker (source_file t) (test_file t) (example_file t) (status t)
    (scenario t) (workflow_state t) (issue_number t) now (notes t)
    (dependencies t) (acceptance_criteria t) (test_review_comments t)
    (implementation_review_comments t) (documentation_review_comments t)
    (examples_review_comments t).

Definition append_test_review_comment (c : string) (t : WorkflowTracker) :=
  mkTracker (source_file t) (test_file t) (example_file t) (status t)
    (scenario t) (workflow_state t) (issue_number t) (last_updated t)
    (notes t) (dependencies t) (acceptance_criteria t)
    (test_review_comments t ++ [c])
    (implementation_review_comments t) (documentation_review_comments t)
    (examples_review_comments t).

Definition append_implementation_review_comment (c : string)
    (t : WorkflowTracker) :=
  mkTracker (source_file t) (test_file t) (example_file t) (status t)
    (scenario t) (workflow_state t) (issue_number t) (last_updated t)
    (notes t) (dependencies t) (acceptance_criteria t)
    (test_review_comments t)
    (implementation_review_comments t ++ [c])
    (documentation_review_comments t) (examples_review_comments t).

(** ** Saving and loading *)

Definition dump_tracker (v : WorkflowTracker) : RawTracker :=
  mkRaw (source_file v) (test_file v) (example_file v)
    (FileStatus_value (status v))
    (ScenarioLevel_value (scenario v))
    (WorkflowState_name (workflow_state v))
    (issue_number v) (last_updated v) (notes v) (dependencies v)
    (acceptance_criteria v) (test_review_comments v)
    (implementation_review_comments v) (documentation_review_comments v)
    (examples_review_comments v).

(** [save_workflow_status]: the file is opened for writing and the whole
    dict is dumped into it. *)
Definition save_workflow_status (h : Helper) : Helper :=
  with_file
    (Some (Parsed (map (fun kv => (fst kv, dump_tracker (snd kv)))
                       (workflow_status h))))
    h.

(** The body of the comprehension in [load_workflow_status]: the three
    enum fields are converted in the order status, scenario,
    workflow_state, and the first failing conversion raises. *)
Definition load_tracker (v : RawTracker) : result WorkflowTracker :=
  st <- FileStatus_of_value (raw_status v) ;;
  sc <- ScenarioLevel_of_value (raw_scenario v) ;;
  w <- WorkflowState_of_name (raw_workflow_state v) ;;
  Ok (mkTracker (raw_source_file v) (raw_test_file v) (raw_example_file v)
        st sc w
        (raw_issue_number v) (raw_last_updated v) (raw_notes v)
        (raw_dependencies v) (raw_acceptance_criteria v)
        (raw_test_review_comments v) (raw_implementation_review_comments v)
        (raw_documentation_review_comments v)
        (raw_examples_review_comments v)).

Fixpoint load_items (data : dict RawTracker) : result (dict WorkflowTracker) :=
  match data with
  | [] => Ok []
  | (k, v) :: rest =>
      t <- load_tracker v ;;
      ts <- load_items rest ;;
      Ok ((k, t) :: ts)
  end.

(** [d[k] = v]: replaces the value of an existing key in place, appends a
    new key at the end. *)
Fixpoint setitem {V : Type} (k : string) (v : V) (d : dict V) : dict V :=
  match d with
  | [] => [(k, v)]
  | (k', v') :: rest =>
      if String.eqb k' k then (k', v) :: rest
      else (k', v') :: setitem k v rest
  end.

(** The tracker the else-branch of [load_workflow_status] creates. *)
Definition initial_tracker (now : string) (source : string) (info : FileInfo)
  : WorkflowTracker :=
  mkTracker source (info_test_file info) (info_example_file info)
    FS_PENDING (info_scenario info) PENDING None now []
    (info_dependencies info) [] [] [] [] [].

(** The readings of the clock during one start-up, in the order they are
    made. *)
Definition clock : Type := nat -> string.

(** A clock that does not advance during the start-up. *)
Definition always (time : string) : clock := fun _ => time.

(** The loop over [self.project.files.items()]: the clock is read anew for
    each record, [i] readings having been made before. *)
Fixpoint seed_from (now : clock) (i : nat) (files : dict FileInfo)
    (ws : dict WorkflowTracker) : dict WorkflowTracker :=
  match files with
  | [] => ws
  | (source, info) :: rest =>
      seed_from now (S i) rest
        (setitem source (initial_tracker (now i) source info) ws)
  end.

Definition load_workflow_status (now : clock) (h : Helper) : result Helper :=
  match workflow_file h with
  | Some Unparseable => Raise JSONDecodeError
  | Some (Parsed data) =>
      ws <- load_items data ;;
      Ok (with_status ws h)
  | None =>
      Ok (save_workflow_status
            (with_status (seed_from now 0 (project h) (workflow_status h))
                         h))
  end.

(** [QToolsWorkflowHelper.__init__] for the registry [files] and the
    content [file] of the state file; the program passes
    [QToolsProject_files]. *)
Definition QToolsWorkflowHelper_init (files : dict FileInfo)
    (file : option FileContent) (now : clock) : result Helper :=
  load_workflow_status now (mkHelper files file []).

(** ** Loading, whatever the file holds *)

(** The dataclass does not check the types of its fields, so a tracker
    built from a state file holds, outside its three enumeration fields,
    whatever JSON values the file gave.  [load_state_file] is the
    comprehension of [load_workflow_status] on an arbitrary file;
    [load_items] above is the same comprehension on files whose values
    have the declared types. *)

Definition field_names : list string :=
  [ "source_file"; "test_file"; "example_file"; "status"; "scenario";
    "workflow_state"; "issue_number"; "last_updated"; "notes";
    "dependencies"; "acceptance_criteria"; "test_review_comments";
    "implementation_review_comments"; "documentation_review_comments";
    "examples_review_comments" ].

Record PyTracker : Type := mkPy {
  py_source_file : json;
  py_test_file : json;
  py_example_file : json;
  py_status : FileStatus;
  py_scenario : ScenarioLevel;
  py_workflow_state : WorkflowState;
  py_issue_number : json;
  py_last_updated : json;
  py_notes : json;
  py_dependencies : json;
  py_acceptance_criteria : json;
  py_test_review_comments : json;
  py_implementation_review_comments : json;
  py_documentation_review_comments : json;
  py_examples_review_comments : json
}.

(** [FileStatus(x)] and [ScenarioLevel(x)] raise [ValueError] for every
    value that is not the value of a member. *)
Definition FileStatus_of_json (x : json) : result FileStatus :=
  match x with
  | JString v => FileStatus_of_value v
  | _ => Raise (ValueErrorOf x)
  end.

Definition ScenarioLevel_of_json (x : json) : result ScenarioLevel :=
  match x with
  | JString v => ScenarioLevel_of_value v
  | _ => Raise (ValueErrorOf x)
  end.

(** [WorkflowState[x]] looks [x] up in the dict of member names: a list
    or a dict cannot be hashed, any other value that is not a name is a
    missing key. *)
Definition WorkflowState_of_json (x : json) : result WorkflowState :=
  match x with
  | JString n => WorkflowState_of_name n
  | JArray _ | JObject _ => Raise (TypeError "unhashable type")
  | _ => Raise (KeyErrorOf x)
  end.

Definition mem (k : string) (l : list string) : bool :=
  existsb (String.eqb k) l.

(** The constructor of [WorkflowTracker], called with the members of the
    record as keywords, takes exactly the fifteen field names: no other
    keyword, and none missing. *)
Definition has_exactly_fields (members : dict json) : bool :=
  forallb (fun k => mem k field_names) (keys members)
  && forallb (fun name => mem name (keys members)) field_names.

Definition field (name : string) (members : dict json) : json :=
  match get name members with
  | Some v => v
  | None => JNull
  end.

(** One value of the comprehension: the dict display evaluates
    [FileStatus(v['status'])], [ScenarioLevel(v['scenario'])] and
    [WorkflowState[v['workflow_state']]] in this order, then the
    constructor of [WorkflowTracker] receives the members of [v] with
    these three replaced. *)
Definition load_value (v : json) : result PyTracker :=
  match v with
  | JObject members =>
      status_value <- getitem "status" members ;;
      st <- FileStatus_of_json status_value ;;
      scenario_value <- getitem "scenario" members ;;
      sc <- ScenarioLevel_of_json scenario_value ;;
      state_name <- getitem "workflow_state" members ;;
      w <- WorkflowState_of_json state_name ;;
      if has_exactly_fields members then
        Ok (mkPy (field "source_file" members) (field "test_file" members)
              (field "example_file" members) st sc w
              (field "issue_number" members) (field "last_updated" members)
              (field "notes" members) (field "dependencies" members)
              (field "acceptance_criteria" members)
              (field "test_review_comments" members)
              (field "implementation_review_comments" members)
              (field "documentation_review_comments" members)
              (field "examples_review_comments" members))
      else Raise (TypeError "WorkflowTracker.__init__")
  | _ => Raise (TypeError "not a mapping")
  end.

Fixpoint load_members (members : dict json) : result (dict PyTracker) :=
  match members with
  | [] => Ok []
  | (k, v) :: rest =>
      t <- load_value v ;;
      ts <- load_members rest ;;
      Ok ((k, t) :: ts)
  end.

(** The text of the state file: not JSON, or the JSON value it denotes. *)
Inductive StateFile : Type :=
| NotJson
| Json (data : json).

(** [json.load(f)] followed by the comprehension over [data.items()]. *)
Definition load_state_file (f : StateFile) : result (dict PyTracker) :=
  match f with
  | NotJson => Raise JSONDecodeError
  | Json (JObject members) => load_members members
  | Json _ => Raise (AttributeError "items")
  end.

(** A file of the typed model as the JSON value it is, and a typed
    tracker as the tracker the loader builds. *)

Definition json_of_optional (o : option string) : json :=
  match o with
  | Some s => JString s
  | None => JNull
  end.

Definition json_of_strings (l : list string) : json := JArray (map JString l).

Definition members_of_raw (v : RawTracker) : dict json :=
    [ ("source_file", JString (raw_source_file v));
      ("test_file", JString (raw_test_file v));
      ("example_file", json_of_optional (raw_example_file v));
      ("status", JString (raw_status v));
      ("scenario", JString (raw_scenario v));
      ("workflow_state", JString (raw_workflow_state v));
      ("issue_number", json_of_optional (raw_issue_number v));
      ("last_updated", JString (raw_last_updated v));
      ("notes", json_of_strings (raw_notes v));
      ("dependencies", json_of_strings (raw_dependencies v));
      ("acceptance_criteria", json_of_strings (raw_acceptance_criteria v));
      ("test_review_comments",
       json_of_strings (raw_test_review_comments v));
      ("implementation_review_comments",
       json_of_strings (raw_implementation_review_comments v));
      ("documentation_review_comments",
       json_of_strings (raw_documentation_review_comments v));
      ("examples_review_comments",
       json_of_strings (raw_examples_review_comments v)) ].

Definition json_of_raw (v : RawTracker) : json := JObject (members_of_raw v).

Definition json_of_data (data : dict RawTracker) : json :=
  JObject (map (fun kv => (fst kv, json_of_raw (snd kv))) data).

Definition file_of_content (content : FileContent) : StateFile :=
  match content with
  | Unparseable => NotJson
  | Parsed data => Json (json_of_data data)
  end.



(** ** The recording methods of [QToolsWorkflowHelper] *)

(** [if not current_file]: [None] and the empty string are both false. *)
Definition no_file (current_file : option string) : bool :=
  match current_file with
  | None => true
  | Some f => String.eqb f ""
  end.

(** [if comment] on an optional string. *)
Definition truthy (comment : option string) : bool :=
  match comment with
  | None => false
  | Some c => negb (String.eqb c "")
  end.

(** The string held by a variable that passed one of the two tests. *)
Definition str_of (value : option string) : string :=
  match value with
  | Some s => s
  | None => ""
  end.

(** The common shape of the recording methods: find the current file,
    return [False] when there is none, otherwise mutate its tracker, save
    and return [True]. *)
Definition on_current (mutate : WorkflowTracker -> WorkflowTracker)
    (h : Helper) : result (bool * Helper) :=
  current_file <- get_current_file (workflow_status h) ;;
  if no_file current_file then Ok (false, h)
  else
    _ <- getitem (str_of current_file) (workflow_status h) ;;
    Ok (true,
        save_workflow_status
          (with_status
             (alter mutate (str_of current_file) (workflow_status h)) h)).

Definition record_issue (issue : string) (now : string) (h : Helper)
  : result (bool * Helper) :=
  on_current
    (fun tracker =>
       set_last_updated now
         (set_workflow_state ISSUE_CREATED
            (set_issue_number (Some issue) tracker)))
    h.

Definition record_tests (now : string) (h : Helper) : result (bool * Helper) :=
  on_current
    (fun tracker =>
       set_last_updated now
         (set_status FS_TESTS_WRITTEN
            (set_workflow_state TESTS_PROVIDED tracker)))
    h.

Definition approve_tests (comment : option string) (now : string) (h : Helper)
  : result (bool * Helper) :=
  on_current
    (fun tracker =>
       let tracker := set_workflow_state TESTS_REVIEWED tracker in
       let tracker := set_status FS_TESTS_REVIEWED tracker in
       let tracker :=
         if truthy comment
         then append_test_review_comment (str_of comment) tracker
         else tracker in
       set_last_updated now tracker)
    h.

Definition request_test_changes (comment : string) (now : string) (h : Helper)
  : result (bool * Helper) :=
  on_current
    (fun tracker =>
       set_last_updated now
         (append_test_review_comment comment
            (set_workflow_state ISSUE_CREATED tracker)))
    h.

Definition record_implementation (now : string) (h : Helper)
  : result (bool * Helper) :=
  on_current
    (fun tracker =>
       set_last_updated now
         (set_status FS_CODE_IMPLEMENTED
            (set_workflow_state IMPLEMENTATION_PROVIDED tracker)))
    h.

Definition approve_implementation (comment : option string) (now : string)
    (h : Helper) : result (bool * Helper) :=
  on_current
    (fun tracker =>
       let tracker := set_workflow_state IMPLEMENTATION_REVIEWED tracker in
       let tracker := set_status FS_CODE_REVIEWED tracker in
       let tracker :=
         if truthy comment
         then append_implementation_review_comment (str_of comment) tracker
         else tracker in
       set_last_updated now tracker)
    h.

(** ** The shell: [QToolsPrompt] *)

(** [str.strip()]: among the code points below 256 Python counts as
    white space 9 to 13, 28 to 31, 32, 133 (next line) and 160 (no-break
    space). *)
Definition is_space (c : ascii) : bool :=
  let n := nat_of_ascii c in
  (((9 <=? n) && (n <=? 13)) || ((28 <=? n) && (n <=? 31)) || (n =? 32)
   || (n =? 133) || (n =? 160))%nat.

Fixpoint lstrip (s : string) : string :=
  match s with
  | EmptyString => EmptyString
  | String c rest => if is_space c then lstrip rest else s
  end.

Fixpoint rstrip (s : string) : string :=
  match s with
  | EmptyString => EmptyString
  | String c rest =>
      let rest' := rstrip rest in
      if is_space c && String.eqb rest' "" then EmptyString
      else String c rest'
  end.

Definition strip (s : string) : string := rstrip (lstrip s).

(** The instruction getters build text from the tracker and the registry;
    only their dict accesses, which may raise, are kept. *)
Definition get_issue_creation_instructions (file : string) (h : Helper)
  : result unit :=
  _ <- getitem file (workflow_status h) ;;
  _ <- getitem file (project h) ;;
  Ok tt.

Definition get_test_request_instructions (file : string) (h : Helper)
  : result unit :=
  _ <- getitem file (workflow_status h) ;;
  Ok tt.

Definition get_static_instructions (file : string) (h : Helper)
  : result unit :=
  Ok tt.

(** The dict [self.workflow_sequence]; it has no entry for [COMPLETED]. *)
Definition workflow_sequence (w : WorkflowState)
  : result (string * (string -> Helper -> result unit)) :=
  match w with
  | PENDING => Ok ("Create GitHub Issue", get_issue_creation_instructions)
  | ISSUE_CREATED => Ok ("Get Tests from Claude", get_test_request_instructions)
  | TESTS_PROVIDED => Ok ("Review Tests", get_static_instructions)
  | TESTS_REVIEWED =>
      Ok ("Get Implementation from Claude", get_static_instructions)
  | IMPLEMENTATION_PROVIDED =>
      Ok ("Review Implementation", get_static_instructions)
  | IMPLEMENTATION_REVIEWED =>
      Ok ("Get Documentation from Claude", get_static_instructions)
  | DOCUMENTATION_PROVIDED =>
      Ok ("Review Documentation", get_static_instructions)
  | DOCUMENTATION_REVIEWED =>
      Ok ("Get Examples from Claude", get_static_instructions)
  | EXAMPLES_PROVIDED => Ok ("Review Examples", get_static_instructions)
  | EXAMPLES_REVIEWED =>
      Ok ("Component Development Completed", get_static_instructions)
  | COMPLETED => Raise (KeyError "WorkflowState.COMPLETED")
  end.

(** [get_next_action], returning the action name. *)
Definition get_next_action (h : Helper) : result string :=
  current_file <- get_current_file (workflow_status h) ;;
  if no_file current_file then Ok "All Scenario 1 files completed!"
  else
    tracker <- getitem (str_of current_file) (workflow_status h) ;;
    entry <- workflow_sequence (workflow_state tracker) ;;
    _ <- snd entry (str_of current_file) h ;;
    Ok (fst entry).

(** [show_progress] reads the trackers of [scenario_1_sequence] with
    [dict.get] and guarded indexing, then asks for the next action. *)
Definition show_progress (h : Helper) : result unit :=
  _ <- get_next_action h ;;
  Ok tt.

Definition do_status (h : Helper) : result unit := show_progress h.

Definition do_next (h : Helper) : result unit :=
  _ <- get_next_action h ;;
  Ok tt.

(** [QToolsPrompt.__init__]: build the helper, show the status. *)
Definition QToolsPrompt_init (files : dict FileInfo)
    (file : option FileContent) (now : clock) : result Helper :=
  h <- QToolsWorkflowHelper_init files file now ;;
  _ <- do_status h ;;
  Ok h.

(** [main] up to the first prompt: an exception ends the process with
    exit status 1. *)
Inductive Startup : Type :=
| Exited (code : nat)
| Prompting (h : Helper).

Definition main (file : option FileContent) (now : clock) : Startup :=
  match QToolsPrompt_init QToolsProject_files file now with
  | Ok h => Prompting h
  | Raise _ => Exited 1
  end.

(** A shell command returns the helper it leaves behind and the refusal
    it printed, if any. *)
Definition reply : Type := (Helper * list string)%type.

Definition then_next (r : bool * Helper) : result reply :=
  if fst r then (_ <- do_next (snd r) ;; Ok (snd r, []))
  else Ok (snd r, []).

Definition do_issue (arg : string) (now : string) (h : Helper)
  : result reply :=
  if String.eqb arg "" then
    Ok (h, ["Please provide the issue number. Usage: issue <number>"])
  else
    action <- get_next_action h ;;
    if negb (String.eqb action "Create GitHub Issue") then
      Ok (h, ["Current step is not issue creation. Type 'next' to see current step."])
    else
      r <- record_issue arg now h ;;
      then_next r.

(** [input().strip() or None]. *)
Definition optional_comment (line : string) : option string :=
  if String.eqb (strip line) "" then None else Some (strip line).

Definition do_approve_tests (line : string) (now : string) (h : Helper)
  : result reply :=
  r <- approve_tests (optional_comment line) now h ;;
  then_next r.

Definition do_approve_implementation (line : string) (now : string)
    (h : Helper) : result reply :=
  r <- approve_implementation (optional_comment line) now h ;;
  then_next r.

(** Attribute lookup on the helper for the methods that take one string:
    the class defines [record_issue] and [request_test_changes], and no
    [request_implementation_changes]. *)
Definition helper_method (name : string)
  : result (string -> string -> Helper -> result (bool * Helper)) :=
  if String.eqb name "record_issue" then Ok record_issue
  else if String.eqb name "request_test_changes" then Ok request_test_changes
  else Raise (AttributeError name).

Definition do_request_test_changes (line : string) (now : string)
    (h : Helper) : result reply :=
  let comment := strip line in
  if String.eqb comment "" then
    Ok (h, ["Please provide a comment explaining the needed changes."])
  else
    method <- helper_method "request_test_changes" ;;
    r <- method comment now h ;;
    then_next r.

Definition do_request_implementation_changes (line : string) (now : string)
    (h : Helper) : result reply :=
  let comment := strip line in
  if String.eqb comment "" then
    Ok (h, ["Please provide a comment explaining the needed changes."])
  else
    method <- helper_method "request_implementation_changes" ;;
    r <- method comment now h ;;
    then_next r.

(** ** Invocations of the recording methods *)

Inductive Action : Type :=
| RecordIssue (issue : string)
| RecordTests
| ApproveTests (comment : option string)
| RequestTestChanges (comment : string)
| RecordImplementation
| ApproveImplementation (comment : option string).

Definition invoke (a : Action) (now : string) (h : Helper)
  : result (bool * Helper) :=
  match a with
  | RecordIssue issue => record_issue issue now h
  | RecordTests => record_tests now h
  | ApproveTests comment => approve_tests comment now h
  | RequestTestChanges comment => request_test_changes comment now h
  | RecordImplementation => record_implementation now h
  | ApproveImplementation comment => approve_implementation comment now h
  end.

(** The gate a method writes. *)
Definition target (a : Action) : WorkflowState :=
  match a with
  | RecordIssue _ => ISSUE_CREATED
  | RecordTests => TESTS_PROVIDED
  | ApproveTests _ => TESTS_REVIEWED
  | RequestTestChanges _ => ISSUE_CREATED
  | RecordImplementation => IMPLEMENTATION_PROVIDED
  | ApproveImplementation _ => IMPLEMENTATION_REVIEWED
  end.

(** The source gate the transition table of the specification gives to
    each action. *)
Definition required_source (a : Action) : WorkflowState :=
  match a with
  | RecordIssue _ => PENDING
  | RecordTests => ISSUE_CREATED
  | ApproveTests _ => TESTS_PROVIDED
  | RequestTestChanges _ => TESTS_PROVIDED
  | RecordImplementation => TESTS_REVIEWED
  | ApproveImplementation _ => IMPLEMENTATION_PROVIDED
  end.

(** Running a list of invocations, stopping at the first exception. *)
Fixpoint invoke_all (actions : list Action) (now : string) (h : Helper)
  : result Helper :=
  match actions with
  | [] => Ok h
  | a :: rest =>
      r <- invoke a now h ;;
      invoke_all rest now (snd r)
  end.

(** What a method does to the tracker of the current file. *)
Definition mutation (a : Action) (now : string) (t : WorkflowTracker)
  : WorkflowTracker :=
  match a with
  | RecordIssue issue =>
      set_last_updated now
        (set_workflow_state ISSUE_CREATED (set_issue_number (Some issue) t))
  | RecordTests =>
      set_last_updated now
        (set_status FS_TESTS_WRITTEN (set_workflow_state TESTS_PROVIDED t))
  | ApproveTests comment =>
      let t := set_workflow_state TESTS_REVIEWED t in
      let t := set_status FS_TESTS_REVIEWED t in
      let t :=
        if truthy comment
        then append_test_review_comment (str_of comment) t
        else t in
      set_last_updated now t
  | RequestTestChanges comment =>
      set_last_updated now
        (append_test_review_comment comment
           (set_workflow_state ISSUE_CREATED t))
  | RecordImplementation =>
      set_last_updated now
        (set_status FS_CODE_IMPLEMENTED
           (set_workflow_state IMPLEMENTATION_PROVIDED t))
  | ApproveImplementation comment =>
      let t := set_workflow_state IMPLEMENTATION_REVIEWED t in
      let t := set_status FS_CODE_REVIEWED t in
      let t :=
        if truthy comment
        then append_implementation_review_comment (str_of comment) t
        else t in
      set_last_updated now t
  end.

(** Illegal invocations are refused: the reading of the specification
    under which an action invoked on a current record whose gate is not
    the action's source gate does not succeed and leaves that record as
    it was. *)
Definition illegal_invocations_are_refused : Prop :=
  forall (a : Action) (now : string) (h : Helper) (f : string)
         (t : WorkflowTracker),
    get_current_file (workflow_status h) = Ok (Some f) ->
    get f (workflow_status h) = Some t ->
    workflow_state t <> required_source a ->
    forall b h', invoke a now h = Ok (b, h') ->
                 b = false /\ get f (workflow_status h') = Some t.

(** A change of a tracker that the scheduler cannot see. *)
Definition harmless (f : WorkflowTracker -> WorkflowTracker)
    (t : WorkflowTracker) : Prop :=
  is_completed (f t) = is_completed t
  /\ dependencies (f t) = dependencies t.

(** ** Dependency graphs *)

(** The dependency lists of a registry, of a record mapping and of a
    state file, keyed by component id. *)
Definition graph : Type := dict (list string).

Definition graph_of_files (files : dict FileInfo) : graph :=
  map (fun kv => (fst kv, info_dependencies (snd kv))) files.

Definition graph_of_status (ws : dict WorkflowTracker) : graph :=
  map (fun kv => (fst kv, dependencies (snd kv))) ws.

Definition graph_of_data (data : dict RawTracker) : graph :=
  map (fun kv => (fst kv, raw_dependencies (snd kv))) data.

Definition dependencies_of (g : graph) (id : string) : list string :=
  match get id g with
  | Some deps => deps
  | None => []
  end.

Definition dep_edge (g : graph) (a b : string) : Prop :=
  In a (keys g) /\ In b (dependencies_of g a).

(** No dangling reference: every dependency id is itself a key. *)
Definition closed (g : graph) : Prop :=
  forall a b, dep_edge g a b -> In b (keys g).

(** No cycle: no id reaches itself along dependency edges. *)
Definition acyclic (g : graph) : Prop :=
  forall a, ~ clos_trans string (dep_edge g) a a.

(** Place of an id in a list of ids (the length if it is absent). *)
Fixpoint position (id : string) (ids : list string) : nat :=
  match ids with
  | [] => 0
  | id' :: rest => if String.eqb id' id then 0 else S (position id rest)
  end.

(** ** The scheduler as the specification words it *)

Section CurrentTask.
Variable files : dict FileInfo.

Definition all_ids : list string := keys files.

Definition registry_dependencies (id : string) : list string :=
  dependencies_of (graph_of_files files) id.

(** The record of [id] exists and its gate is [COMPLETED]. *)
Definition completed_in (ws : dict WorkflowTracker) (id : string) : bool :=
  match get id ws with
  | Some t => is_completed t
  | None => false
  end.

Definition eligible (ws : dict WorkflowTracker) (id : string) : bool :=
  negb (completed_in ws id)
  && forallb (completed_in ws) (registry_dependencies id).

(** First id, in registration order, that is not completed and whose
    declared dependencies are all completed. *)
Definition current_task (ws : dict WorkflowTracker) : option string :=
  find (eligible ws) all_ids.

(** The record mapping is a state over this registry: one record per
    entry, in registration order, carrying the entry's dependencies. *)
Definition aligned (ws : dict WorkflowTracker) : Prop :=
  keys ws = all_ids /\
  forall id t, In (id, t) ws -> dependencies t = registry_dependencies id.
End CurrentTask.

Definition every_record_completed (ws : dict WorkflowTracker) : Prop :=
  forall id t, In (id, t) ws -> workflow_state t = COMPLETED.

(** ** Malformed state files *)

Definition known_status (v : string) : bool :=
  existsb (fun s => String.eqb (FileStatus_value s) v) all_FileStatus.

Definition known_scenario (v : string) : bool :=
  existsb (fun s => String.eqb (ScenarioLevel_value s) v) all_ScenarioLevel.

Definition known_gate (n : string) : bool :=
  existsb (fun s => String.eqb (WorkflowState_name s) n) all_WorkflowState.












(** The reading of the specification under which the scheduler follows
    the registry in every state the helper can be built in from a state
    file. *)
Definition scheduler_follows_registry_in_every_state : Prop :=
  forall (data : dict RawTracker) (now : clock) (h : Helper),
    QToolsWorkflowHelper_init QToolsProject_files (Some (Parsed data)) now
    = Ok h ->
    get_current_file (workflow_status h)
    = Ok (current_task QToolsProject_files (workflow_status h))
    /\ (get_current_file (workflow_status h) = Ok None
        <-> every_record_completed (workflow_status h)).

(** ** Concrete states *)

(** The helper a first run leaves behind at time ["t0"]. *)
Definition fresh_helper : Helper :=
  save_workflow_status
    (with_status (seed_from (always "t0") 0 QToolsProject_files [])
                 (mkHelper QToolsProject_files None [])).

Definition helper_after (actions : list Action) : Helper :=
  match invoke_all actions "t1" fresh_helper with
  | Ok h => h
  | Raise _ => fresh_helper
  end.

(** The first file has an issue and tests. *)
Definition tests_provided_helper : Helper :=
  helper_after [RecordIssue "7"; RecordTests].

(** The first file has approved tests and an implementation. *)
Definition implementation_provided_helper : Helper :=
  helper_after
    [RecordIssue "7"; RecordTests; ApproveTests None; RecordImplementation].

Definition pending_raw (source : string) (deps : list string) : RawTracker :=
  mkRaw source "" None "pending" "basic" "PENDING" None "t0" [] deps
        [] [] [] [] [].

(** A state file over two registry ids that depend on each other. *)
Definition looping_data : dict RawTracker :=
  [ ("src/utils/types.rs",
     pending_raw "src/utils/types.rs" ["src/signal/weak_signal.rs"]);
    ("src/signal/weak_signal.rs",
     pending_raw "src/signal/weak_signal.rs" ["src/utils/types.rs"]) ].

(** A state file with one record whose gate name is not a gate. *)
Definition bogus_data : dict RawTracker :=
  [ ("src/utils/types.rs",
     mkRaw "src/utils/types.rs" "tests/utils/types_tests.rs"
           (Some "examples/types_usage.rs") "pending" "basic" "REVIEWED"
           None "t0" [] [] [] [] [] [] []) ].


Definition completed_raw (source : string) (deps : list string) : RawTracker :=
  mkRaw source "" None "completed" "basic" "COMPLETED" None "t0" [] deps
        [] [] [] [] [].

(** A state file with a record for every registry id, each with the
    dependencies the registry declares; the first is finished, and the
    records of the second and third registry ids come in the other
    order. *)
Definition reordered_data : dict RawTracker :=
  [ ("src/utils/types.rs", completed_raw "src/utils/types.rs" []);
    ("src/pattern/recognition.rs",
     pending_raw "src/pattern/recognition.rs" ["src/utils/types.rs"]);
    ("src/signal/weak_signal.rs",
     pending_raw "src/signal/weak_signal.rs" ["src/utils/types.rs"]);
    ("src/quantum/state.rs",
     pending_raw "src/quantum/state.rs"
                 ["src/utils/types.rs"; "src/signal/weak_signal.rs"]);
    ("src/sync/phase.rs",
     pending_raw "src/sync/phase.rs" ["src/quantum/state.rs"]);
    ("src/network/kuramoto.rs",
     pending_raw "src/network/kuramoto.rs"
                 ["src/quantum/state.rs"; "src/sync/phase.rs"]);
    ("src/network/topology.rs",
     pending_raw "src/network/topology.rs" ["src/network/kuramoto.rs"]);
    ("src/quantum/entanglement.rs",
     pending_raw "src/quantum/entanglement.rs" ["src/quantum/state.rs"]) ].

(** A state file whose second record names an id that has no record. *)
Definition dangling_data : dict RawTracker :=
  [ ("src/utils/types.rs", pending_raw "src/utils/types.rs" []);
    ("src/signal/weak_signal.rs",
     pending_raw "src/signal/weak_signal.rs"
                 ["src/utils/types.rs"; "src/missing.rs"]) ].

(** ** Sessions *)

(** A clock whose readings are ["t0"], ["t1"], ["t2"] and so on. *)
Definition ticking : clock :=
  fun i => String "t" (String (ascii_of_nat (48 + i)) EmptyString).

(** The records of a first run, [i] readings of the clock having been made
    before the first of them. *)
Fixpoint seeded (now : clock) (i : nat) (files : dict FileInfo)
  : dict WorkflowTracker :=
  match files with
  | [] => []
  | (source, info) :: rest =>
      (source, initial_tracker (now i) source info) :: seeded now (S i) rest
  end.

(** The state file holds the dump of the mapping in memory. *)
Definition in_sync (h : Helper) : Prop :=
  workflow_file h
  = Some (Parsed (map (fun kv => (fst kv, dump_tracker (snd kv)))
                      (workflow_status h))).

(** [t'] is a later state of the record [t]: the descriptive fields, the
    notes, the criteria and the documentation and examples logs are the
    same, the two review logs have only grown at the end, and the gate is
    the old one or one of the five gates the methods write. *)
Definition evolves (t t' : WorkflowTracker) : Prop :=
  source_file t' = source_file t
  /\ test_file t' = test_file t
  /\ example_file t' = example_file t
  /\ scenario t' = scenario t
  /\ notes t' = notes t
  /\ dependencies t' = dependencies t
  /\ acceptance_criteria t' = acceptance_criteria t
  /\ documentation_review_comments t' = documentation_review_comments t
  /\ examples_review_comments t' = examples_review_comments t
  /\ (exists more, test_review_comments t' = test_review_comments t ++ more)
  /\ (exists more, implementation_review_comments t'
                   = implementation_review_comments t ++ more)
  /\ (workflow_state t' = workflow_state t
      \/ In (workflow_state t')
            [ISSUE_CREATED; TESTS_PROVIDED; TESTS_REVIEWED;
             IMPLEMENTATION_PROVIDED; IMPLEMENTATION_REVIEWED]).

(** Rounds of test review that each end in a request for changes. *)
Definition rollback_rounds (comments : list string) : list Action :=
  flat_map (fun c => [RecordTests; RequestTestChanges c]) comments.

(** The helper built over the program's registry from a state file, for
    files that load. *)
Definition helper_of_data (data : dict RawTracker) : Helper :=
  match QToolsWorkflowHelper_init QToolsProject_files (Some (Parsed data))
          (always "t1") with
  | Ok h => h
  | Raise _ => fresh_helper
  end.

(** A state file whose first record depends on an id without a record. *)
Definition dangling_first_data : dict RawTracker :=
  [ ("src/utils/types.rs",
     pending_raw "src/utils/types.rs" ["src/missing.rs"]) ].

(** A state file with a [PENDING] record for an id the registry lacks. *)
Definition unknown_pending_data : dict RawTracker :=
  [ ("src/new.rs", pending_raw "src/new.rs" []) ].

(** A state file in which the work on both records is finished. *)
Definition completed_data : dict RawTracker :=
  [ ("src/utils/types.rs",
     mkRaw "src/utils/types.rs" "tests/utils/types_tests.rs"
           (Some "examples/types_usage.rs") "completed" "basic" "COMPLETED"
           (Some "7") "t0" [] [] [] [] [] [] []);
    ("src/signal/weak_signal.rs",
     mkRaw "src/signal/weak_signal.rs" "tests/signal/weak_signal_tests.rs"
           (Some "examples/signal_analysis.rs") "completed" "basic"
           "COMPLETED" (Some "8") "t0" [] ["src/utils/types.rs"]
           [] [] [] [] []) ].

(** * Properties *)

(** ** Dicts *)

Section DictFacts.
Variable V : Type.
Implicit Types (d : dict V) (k : string).

Lemma get_some_in d k v : get k d = Some v -> In (k, v) d.
Proof.
  induction d as [|[k' v'] d IH]; simpl; [discriminate|].
  destruct (String.eqb_spec k' k) as [->|Hne].
  - intros [= ->]. now left.
  - intros H. right. now apply IH.
Qed.

Lemma get_none_not_key d k : get k d = None <-> ~ In k (keys d).
Proof.
  induction d as [|[k' v'] d IH]; simpl.
  - split; [intros _ []|reflexivity].
  - destruct (String.eqb_spec k' k) as [->|Hne].
    + split; [discriminate|]. intros H. exfalso. apply H. now left.
    + rewrite IH. split.
      * intros H [Heq|Hin]; [now apply Hne | now apply H].
      * intros H Hin. apply H. now right.
Qed.

Lemma key_has_value d k : In k (keys d) -> exists v, get k d = Some v.
Proof.
  intros Hin. destruct (get k d) as [v|] eqn:E; [now exists v|].
  apply get_none_not_key in E. contradiction.
Qed.

Lemma in_keys d k v : In (k, v) d -> In k (keys d).
Proof. intros H. apply (in_map fst) in H. exact H. Qed.

Lemma in_get d k v : NoDup (keys d) -> In (k, v) d -> get k d = Some v.
Proof.
  induction d as [|[k' v'] d IH]; simpl; [intros _ []|].
  intros Hnd [Heq|Hin].
  - injection Heq as -> ->. now rewrite String.eqb_refl.
  - inversion Hnd as [|? ? Hnotin Hnd']; subst.
    destruct (String.eqb_spec k' k) as [->|Hne].
    + exfalso. apply Hnotin. now apply in_keys with v.
    + now apply IH.
Qed.

Lemma keys_alter (f : V -> V) k d : keys (alter f k d) = keys d.
Proof.
  induction d as [|[k' v'] d IH]; simpl; [reflexivity|].
  destruct (String.eqb k' k); simpl; [reflexivity|]. now f_equal.
Qed.

Lemma get_alter_same (f : V -> V) k d :
  get k (alter f k d) = option_map f (get k d).
Proof.
  induction d as [|[k' v'] d IH]; simpl; [reflexivity|].
  destruct (String.eqb k' k) eqn:E; simpl; rewrite E; [reflexivity|exact IH].
Qed.

Lemma get_alter_other (f : V -> V) k k' d :
  k' <> k -> get k' (alter f k d) = get k' d.
Proof.
  intros Hne. induction d as [|[k0 v0] d IH]; simpl; [reflexivity|].
  destruct (String.eqb_spec k0 k) as [->|H0]; simpl.
  - destruct (String.eqb_spec k k') as [<-|_]; [contradiction|reflexivity].
  - destruct (String.eqb k0 k'); [reflexivity|exact IH].
Qed.
End DictFacts.

(** ** Results *)

Lemma bind_ok {A B : Type} (r : result A) (k : A -> result B) (b : B) :
  bind r k = Ok b -> exists a, r = Ok a /\ k a = Ok b.
Proof. destruct r as [a|e]; simpl; [eauto|discriminate]. Qed.

Ltac bind_inv H :=
  let a := fresh "a" in
  let E := fresh "E" in
  apply bind_ok in H; destruct H as (a & E & H).

(** ** The gates *)

Lemma WorkflowState_eqb_spec (a b : WorkflowState) :
  reflect (a = b) (WorkflowState_eqb a b).
Proof. destruct a, b; simpl; constructor; congruence. Qed.

Lemma is_completed_iff (t : WorkflowTracker) :
  is_completed t = true <-> workflow_state t = COMPLETED.
Proof.
  unfold is_completed.
  destruct (WorkflowState_eqb_spec (workflow_state t) COMPLETED); split;
    congruence.
Qed.

(** ** What the scheduler returns *)

Lemma next_task_from_some ws todo source deps :
  next_task_from ws todo = Ok (Some (source, deps)) ->
  exists t, In (source, t) todo /\ is_completed t = false
            /\ deps = dependencies t
            /\ deps_completed ws (dependencies t) = Ok true.
Proof.
  induction todo as [|[k t] todo IH]; simpl; [discriminate|].
  destruct (is_completed t) eqn:Ec; simpl.
  - intros H. destruct (IH H) as (t' & Hin & Hrest). exists t'. tauto.
  - destruct (deps_completed ws (dependencies t)) as [[|]|e] eqn:Ed; simpl.
    + intros [= <- <-]. exists t. repeat split; auto.
    + intros H. destruct (IH H) as (t' & Hin & Hrest). exists t'. tauto.
    + discriminate.
Qed.

Lemma current_file_has_record ws f :
  get_current_file ws = Ok (Some f) ->
  exists t, In (f, t) ws /\ is_completed t = false.
Proof.
  unfold get_current_file, get_next_task. intros H. bind_inv H.
  destruct a as [[source deps]|]; [|discriminate].
  injection H as ->.
  apply next_task_from_some in E. destruct E as (t & Hin & Hc & _).
  now exists t.
Qed.

Lemma current_file_is_key ws f :
  get_current_file ws = Ok (Some f) -> exists t, get f ws = Some t.
Proof.
  intros H. apply current_file_has_record in H. destruct H as (t & Hin & _).
  apply key_has_value. now apply in_keys with t.
Qed.

(** ** The recording methods *)

Lemma invoke_on_current (a : Action) (now : string) (h : Helper) :
  invoke a now h = on_current (mutation a now) h.
Proof.
  destruct a; reflexivity.
Qed.

Lemma no_file_some (f : string) : no_file (Some f) = false <-> f <> "".
Proof.
  simpl. destruct (String.eqb_spec f ""); split; congruence.
Qed.

Lemma on_current_some mutate h f :
  get_current_file (workflow_status h) = Ok (Some f) -> f <> "" ->
  on_current mutate h
  = Ok (true,
        save_workflow_status
          (with_status (alter mutate f (workflow_status h)) h)).
Proof.
  intros Hc Hf. unfold on_current. rewrite Hc. cbn [bind].
  apply no_file_some in Hf. rewrite Hf. cbn [str_of].
  destruct (current_file_is_key _ Hc) as (t & Ht).
  unfold getitem. rewrite Ht. reflexivity.
Qed.

Lemma on_current_none mutate h current_file :
  get_current_file (workflow_status h) = Ok current_file ->
  no_file current_file = true ->
  on_current mutate h = Ok (false, h).
Proof.
  intros Hc Hn. unfold on_current. rewrite Hc. cbn [bind]. now rewrite Hn.
Qed.

Lemma on_current_ok mutate h b h' :
  on_current mutate h = Ok (b, h') ->
  (b = false /\ h' = h) \/
  (b = true /\ exists f,
      get_current_file (workflow_status h) = Ok (Some f) /\ f <> "" /\
      h' = save_workflow_status
             (with_status (alter mutate f (workflow_status h)) h)).
Proof.
  intros H.
  destruct (get_current_file (workflow_status h)) as [c|e] eqn:Hc.
  - destruct (no_file c) eqn:Hn.
    + rewrite (on_current_none _ _ Hc Hn) in H. injection H as <- <-.
      now left.
    + destruct c as [f|]; [|discriminate].
      apply no_file_some in Hn.
      rewrite (on_current_some _ _ Hc Hn) in H. injection H as <- <-.
      right. split; [reflexivity|]. exists f. auto.
  - unfold on_current in H. rewrite Hc in H. discriminate.
Qed.

Lemma workflow_status_save h :
  workflow_status (save_workflow_status h) = workflow_status h.
Proof. reflexivity. Qed.

Lemma mutation_sets_target (a : Action) (now : string) (t : WorkflowTracker) :
  workflow_state (mutation a now t) = target a.
Proof.
  destruct a as [issue| |comment|comment| |comment]; simpl;
    try reflexivity; destruct (truthy comment); reflexivity.
Qed.

Lemma mutation_keeps_dependencies (a : Action) (now : string)
    (t : WorkflowTracker) :
  dependencies (mutation a now t) = dependencies t.
Proof.
  destruct a as [issue| |comment|comment| |comment]; simpl;
    try reflexivity; destruct (truthy comment); reflexivity.
Qed.

(** C9.  A recording method changes no record but the one of the current
    file: after any invocation that returns, the record stored under every
    other id is the record that was stored under it before, and the
    mapping has the same ids in the same order. *)
Theorem invoke_touches_only_current_file
    (a : Action) (now : string) (h : Helper) (b : bool) (h' : Helper)
    (id : string) :
  invoke a now h = Ok (b, h') ->
  get_current_file (workflow_status h) <> Ok (Some id) ->
  get id (workflow_status h') = get id (workflow_status h)
  /\ keys (workflow_status h') = keys (workflow_status h).
Proof.
  rewrite invoke_on_current. intros H Hid.
  apply on_current_ok in H.
  destruct H as [[_ ->]|[_ (f & Hc & _ & ->)]]; [now split|].
  rewrite workflow_status_save. simpl workflow_status. split.
  - apply get_alter_other. intros ->. now apply Hid.
  - apply keys_alter.
Qed.

Lemma invoke_touches_only_current_file_witness :
  exists h',
    invoke (ApproveTests (Some "fine")) "t1" fresh_helper = Ok (true, h')
    /\ get "src/sync/phase.rs" (workflow_status h')
       = get "src/sync/phase.rs" (workflow_status fresh_helper)
    /\ keys (workflow_status h') = keys (workflow_status fresh_helper).
Proof.
  eexists. split; [reflexivity|].
  apply (@invoke_touches_only_current_file
           (ApproveTests (Some "fine")) "t1" fresh_helper true).
  - reflexivity.
  - vm_compute. discriminate.
Defined.

(** C1, the claim as stated fails: on the first run every record is
    [PENDING], and [approve_tests], whose source gate is [TESTS_PROVIDED],
    returns [True] and moves the current record to [TESTS_REVIEWED]. *)
Lemma illegal_invocation_is_applied : ~ illegal_invocations_are_refused.
Proof.
  intros H.
  destruct (H (ApproveTests None) "t1" fresh_helper "src/utils/types.rs"
              (initial_tracker "t0" "src/utils/types.rs"
                 (mkInfo "tests/utils/types_tests.rs"
                    (Some "examples/types_usage.rs") BASIC []
                    "Core data structures for time series and market data"))
              eq_refl eq_refl ltac:(discriminate) _ _ eq_refl)
    as [Hb _].
  discriminate Hb.
Qed.

(** C1 as amended.  The recording methods do not look at the gate: if
    there is a current file (an id other than the empty string, which the
    methods take for no file), whatever the gate of its record, the call
    returns [True], the record becomes the method's mutation of the old
    one, its gate is the method's target gate, and the new mapping is what
    the state file holds. *)
Theorem invoke_applies_in_any_gate
    (a : Action) (now : string) (h : Helper) (f : string) :
  get_current_file (workflow_status h) = Ok (Some f) ->
  f <> "" ->
  exists t h',
    get f (workflow_status h) = Some t
    /\ invoke a now h = Ok (true, h')
    /\ get f (workflow_status h') = Some (mutation a now t)
    /\ workflow_state (mutation a now t) = target a
    /\ workflow_file h'
       = Some (Parsed (map (fun kv => (fst kv, dump_tracker (snd kv)))
                           (workflow_status h'))).
Proof.
  intros Hc Hf.
  destruct (current_file_is_key _ Hc) as (t & Ht).
  exists t. eexists. split; [exact Ht|]. split.
  - rewrite invoke_on_current. exact (on_current_some _ _ Hc Hf).
  - rewrite workflow_status_save. cbn [workflow_status with_status].
    rewrite get_alter_same, Ht. simpl. split; [reflexivity|].
    split; [apply mutation_sets_target|reflexivity].
Qed.

Lemma invoke_applies_in_any_gate_witness :
  exists t h',
    get "src/utils/types.rs" (workflow_status fresh_helper) = Some t
    /\ invoke RecordImplementation "t1" fresh_helper = Ok (true, h')
    /\ get "src/utils/types.rs" (workflow_status h')
       = Some (mutation RecordImplementation "t1" t)
    /\ workflow_state (mutation RecordImplementation "t1" t)
       = target RecordImplementation
    /\ workflow_file h'
       = Some (Parsed (map (fun kv => (fst kv, dump_tracker (snd kv)))
                           (workflow_status h'))).
Proof.
  apply (@invoke_applies_in_any_gate RecordImplementation "t1" fresh_helper
           "src/utils/types.rs").
  - reflexivity.
  - discriminate.
Defined.

(** ** Dependency graphs without cycles *)

Lemma forallb_false_exists {A : Type} (f : A -> bool) (l : list A) :
  forallb f l = false -> exists x, In x l /\ f x = false.
Proof.
  induction l as [|a l IH]; simpl; [discriminate|].
  destruct (f a) eqn:Ea; simpl.
  - intros H. destruct (IH H) as (x & Hin & Hx). exists x. auto.
  - intros _. exists a. auto.
Qed.

Lemma find_none_iff {A : Type} (f : A -> bool) (l : list A) :
  find f l = None <-> forall x, In x l -> f x = false.
Proof.
  split; [apply find_none|].
  induction l as [|a l IH]; simpl; [reflexivity|].
  intros H. rewrite (H a (or_introl eq_refl)). apply IH.
  intros x Hx. apply H. now right.
Qed.

Lemma find_map_fst {A B : Type} (p : A * B -> bool) (q : A -> bool)
    (l : list (A * B)) :
  (forall kv, In kv l -> p kv = q (fst kv)) ->
  option_map fst (find p l) = find q (map fst l).
Proof.
  induction l as [|kv l IH]; simpl; [reflexivity|].
  intros H. rewrite <- (H kv (or_introl eq_refl)).
  destruct (p kv); [reflexivity|]. apply IH.
  intros kv' Hin. apply H. now right.
Qed.

Section Descent.
Variable g : graph.
Variable done : string -> bool.
Hypothesis g_closed : closed g.
Hypothesis g_acyclic : acyclic g.

(** Following unfinished dependencies from an unfinished id never
    revisits an id, so it stops, and it stops at a ready id. *)
Lemma descent (n : nat) :
  forall (visited : list string) (x : string),
    List.length (keys g) - List.length visited <= n ->
    NoDup visited ->
    incl visited (keys g) ->
    (forall v, In v visited -> clos_trans string (dep_edge g) v x) ->
    In x (keys g) -> done x = false ->
    exists y, In y (keys g) /\ done y = false
              /\ forallb done (dependencies_of g y) = true.
Proof.
  induction n as [|n IH]; intros visited x Hn Hnd Hincl Hreach Hx Hdone.
  - assert (Hfresh : ~ In x visited).
    { intros Hin. exact (g_acyclic (Hreach x Hin)). }
    assert (Hlen : List.length (x :: visited) <= List.length (keys g)).
    { apply NoDup_incl_length; [now constructor|].
      intros v [<-|Hv]; [exact Hx|now apply Hincl]. }
    simpl in Hlen. lia.
  - destruct (forallb done (dependencies_of g x)) eqn:Hall.
    + exists x. now repeat split.
    + apply forallb_false_exists in Hall. destruct Hall as (d & Hd & Hdd).
      assert (Hedge : dep_edge g x d) by now split.
      assert (Hfresh : ~ In x visited).
      { intros Hin. exact (g_acyclic (Hreach x Hin)). }
      assert (Hlen : List.length (x :: visited) <= List.length (keys g)).
      { apply NoDup_incl_length; [now constructor|].
        intros v [<-|Hv]; [exact Hx|now apply Hincl]. }
      simpl in Hlen.
      apply (IH (x :: visited) d).
      * simpl. lia.
      * now constructor.
      * intros v [<-|Hv]; [exact Hx|now apply Hincl].
      * intros v [<-|Hv]; [now apply t_step|].
        apply t_trans with x; [now apply Hreach|now apply t_step].
      * now apply g_closed with x.
      * exact Hdd.
Qed.

Lemma unfinished_gives_ready (x : string) :
  In x (keys g) -> done x = false -> exists y, In y (keys g) /\ done y = false
              /\ forallb done (dependencies_of g y) = true.
Proof.
  intros Hx Hdone.
  apply (@descent (List.length (keys g)) [] x); auto.
  - simpl. lia.
  - constructor.
  - intros v [].
  - intros v [].
Qed.
End Descent.

(** A graph whose edges all lead to a smaller rank has no cycle. *)
Lemma ranked_acyclic (g : graph) (rank : string -> nat) :
  (forall a b, dep_edge g a b -> rank b < rank a) -> acyclic g.
Proof.
  intros Hrank.
  assert (Hpath : forall a b, clos_trans string (dep_edge g) a b ->
                              rank b < rank a).
  { intros a b H. induction H as [a b H|a b c _ IH1 _ IH2].
    - now apply Hrank.
    - lia. }
  intros a H. apply Hpath in H. lia.
Qed.

(** The registry of the program: distinct ids, no dangling reference, no
    cycle (every dependency is registered before its dependant). *)

Lemma QToolsProject_files_distinct : NoDup (all_ids QToolsProject_files).
Proof.
  unfold all_ids. simpl.
  repeat (constructor; [simpl; intuition discriminate|]). constructor.
Qed.

Lemma QToolsProject_files_closed : closed (graph_of_files QToolsProject_files).
Proof.
  intros a b [Ha Hb]. simpl in Ha.
  repeat (destruct Ha as [<-|Ha]; [vm_compute in Hb; vm_compute; tauto|]).
  contradiction.
Qed.

Lemma QToolsProject_files_acyclic :
  acyclic (graph_of_files QToolsProject_files).
Proof.
  apply ranked_acyclic
    with (rank := fun id => position id (all_ids QToolsProject_files)).
  intros a b [Ha Hb]. simpl in Ha.
  repeat (destruct Ha as [<-|Ha];
          [vm_compute in Hb;
           repeat (destruct Hb as [<-|Hb]; [vm_compute; lia|]);
           contradiction|]).
  contradiction.
Qed.

(** ** The scheduler against its specification *)

Lemma deps_completed_present ws deps :
  (forall d, In d deps -> In d (keys ws)) ->
  deps_completed ws deps = Ok (forallb (completed_in ws) deps).
Proof.
  induction deps as [|d deps IH]; intros Hin; simpl; [reflexivity|].
  destruct (key_has_value ws d (Hin d (or_introl eq_refl))) as (t & Ht).
  unfold getitem, completed_in. rewrite Ht. cbn [bind].
  destruct (is_completed t); simpl; [|reflexivity].
  apply IH. intros d' Hd'. apply Hin. now right.
Qed.

Lemma next_task_from_find ws todo :
  (forall k t d, In (k, t) todo -> In d (dependencies t) -> In d (keys ws)) ->
  next_task_from ws todo
  = Ok (option_map
          (fun kv => (fst kv, dependencies (snd kv)))
          (find (fun kv => negb (is_completed (snd kv))
                           && forallb (completed_in ws)
                                      (dependencies (snd kv)))
                todo)).
Proof.
  induction todo as [|[k t] todo IH]; intros Hin; simpl; [reflexivity|].
  assert (IH' := IH (fun k' t' d H => Hin k' t' d (or_intror H))).
  destruct (is_completed t); simpl; [exact IH'|].
  rewrite (@deps_completed_present ws (dependencies t)).
  - cbn [bind]. destruct (forallb (completed_in ws) (dependencies t));
      [reflexivity|exact IH'].
  - intros d Hd. apply (Hin k t d); [now left|exact Hd].
Qed.

Section Refinement.
Variable files : dict FileInfo.
Variable ws : dict WorkflowTracker.
Hypothesis ids_distinct : NoDup (all_ids files).
Hypothesis files_closed : closed (graph_of_files files).
Hypothesis ws_aligned : aligned files ws.

Lemma keys_graph_of_files : keys (graph_of_files files) = all_ids files.
Proof.
  unfold graph_of_files, keys, all_ids, keys. rewrite map_map.
  reflexivity.
Qed.

Lemma aligned_get k t : In (k, t) ws -> get k ws = Some t.
Proof.
  apply in_get. destruct ws_aligned as [-> _]. exact ids_distinct.
Qed.

Lemma aligned_deps_present k t d :
  In (k, t) ws -> In d (dependencies t) -> In d (keys ws).
Proof.
  intros Hin Hd. destruct ws_aligned as [Hkeys Hdeps].
  rewrite (Hdeps k t Hin) in Hd. rewrite Hkeys.
  rewrite <- keys_graph_of_files. apply files_closed with k. split.
  - rewrite keys_graph_of_files, <- Hkeys. now apply in_keys with t.
  - exact Hd.
Qed.

Lemma aligned_eligible k t :
  In (k, t) ws ->
  negb (is_completed t) && forallb (completed_in ws) (dependencies t)
  = eligible files ws k.
Proof.
  intros Hin. unfold eligible, completed_in at 2.
  rewrite (aligned_get _ _ Hin).
  destruct ws_aligned as [_ Hdeps]. now rewrite (Hdeps k t Hin).
Qed.

Lemma get_current_file_refines :
  get_current_file ws = Ok (current_task files ws).
Proof.
  unfold get_current_file, get_next_task.
  rewrite next_task_from_find by exact aligned_deps_present.
  cbn [bind]. f_equal. unfold current_task.
  destruct ws_aligned as [<- _]. unfold keys.
  rewrite <- (@find_map_fst _ _
                (fun kv => negb (is_completed (snd kv))
                           && forallb (completed_in ws)
                                      (dependencies (snd kv)))
                (eligible files ws) ws).
  - destruct (find _ ws) as [[k t]|]; reflexivity.
  - intros [k t] Hin. now apply aligned_eligible.
Qed.

Lemma completed_none_eligible :
  every_record_completed ws -> current_task files ws = None.
Proof.
  intros Hall. apply find_none_iff. intros id Hid.
  destruct ws_aligned as [Hkeys _]. rewrite <- Hkeys in Hid.
  destruct (key_has_value ws id Hid) as (t & Ht).
  unfold eligible, completed_in at 1. rewrite Ht.
  apply get_some_in in Ht. apply Hall in Ht.
  apply is_completed_iff in Ht. now rewrite Ht.
Qed.

Hypothesis files_acyclic : acyclic (graph_of_files files).

Lemma none_eligible_completed :
  current_task files ws = None -> every_record_completed ws.
Proof.
  intros Hnone id t Hin.
  destruct (is_completed t) eqn:Hc; [now apply is_completed_iff|].
  exfalso.
  assert (Hid : In id (keys (graph_of_files files))).
  { rewrite keys_graph_of_files. destruct ws_aligned as [<- _].
    now apply in_keys with t. }
  assert (Hundone : completed_in ws id = false).
  { unfold completed_in. now rewrite (aligned_get _ _ Hin). }
  destruct (@unfinished_gives_ready (graph_of_files files)
              (completed_in ws) files_closed files_acyclic id Hid Hundone)
    as (y & Hy & Hdy & Hry).
  rewrite keys_graph_of_files in Hy.
  assert (Hel : eligible files ws y = false).
  { exact (proj1 (find_none_iff _ _) Hnone y Hy). }
  unfold eligible in Hel. rewrite Hdy in Hel.
  unfold registry_dependencies in Hel. rewrite Hry in Hel. discriminate.
Qed.
End Refinement.

(** C2, the claim as stated fails.  The scheduler iterates the record
    mapping and reads the dependency lists of the records, and the loader
    takes both from the state file as they are.  From a file whose records
    are those of the registry with the second and third interchanged it
    returns the third registry id while the second is eligible; from a
    file whose two records depend on each other it returns [None] while no
    record is [COMPLETED]. *)
Lemma loaded_state_departs_from_registry_order :
  (exists h,
      QToolsWorkflowHelper_init QToolsProject_files
        (Some (Parsed reordered_data)) (always "t1") = Ok h
      /\ keys (workflow_status h)
         = [ "src/utils/types.rs"; "src/pattern/recognition.rs";
             "src/signal/weak_signal.rs"; "src/quantum/state.rs";
             "src/sync/phase.rs"; "src/network/kuramoto.rs";
             "src/network/topology.rs"; "src/quantum/entanglement.rs" ]
      /\ get_current_file (workflow_status h)
         = Ok (Some "src/pattern/recognition.rs")
      /\ current_task QToolsProject_files (workflow_status h)
         = Some "src/signal/weak_signal.rs")
  /\ (exists h,
         QToolsWorkflowHelper_init QToolsProject_files
           (Some (Parsed looping_data)) (always "t1") = Ok h
         /\ get_current_file (workflow_status h) = Ok None
         /\ ~ every_record_completed (workflow_status h))
  /\ ~ scheduler_follows_registry_in_every_state.
Proof.
  split; [|split].
  - eexists. split; [vm_compute; reflexivity|].
    split; [reflexivity|]. split; vm_compute; reflexivity.
  - eexists. split; [vm_compute; reflexivity|].
    split; [vm_compute; reflexivity|].
    intros H.
    specialize (H "src/utils/types.rs" _ (or_introl eq_refl)).
    discriminate.
  - intros H.
    destruct (H reordered_data (always "t1") _ eq_refl) as [Habs _].
    vm_compute in Habs. discriminate.
Qed.

(** C2 as amended.  For a registry with distinct ids, no dangling
    reference and no cycle, and a record mapping that holds one record
    per registry entry in registration order with the entry's
    dependencies (the mapping a first run creates, and every mapping the
    recording methods make of it), [get_current_file] returns the first registry id whose record is not
    [COMPLETED] and whose declared dependencies all have [COMPLETED]
    records; what it returns is a registry id; and it returns [None]
    exactly when every record is [COMPLETED]. *)
Theorem get_current_file_is_current_task
    (files : dict FileInfo) (ws : dict WorkflowTracker) :
  NoDup (all_ids files) ->
  closed (graph_of_files files) ->
  acyclic (graph_of_files files) ->
  aligned files ws ->
  get_current_file ws = Ok (current_task files ws)
  /\ (forall id, get_current_file ws = Ok (Some id) -> In id (all_ids files))
  /\ (get_current_file ws = Ok None <-> every_record_completed ws).
Proof.
  intros Hnd Hclosed Hacyclic Hal.
  assert (Href := get_current_file_refines Hnd Hclosed Hal).
  split; [exact Href|]. rewrite Href. split.
  - intros id [= H]. unfold current_task in H.
    apply find_some in H. tauto.
  - split.
    + intros [= H]. now apply none_eligible_completed with files.
    + intros H. f_equal. now apply completed_none_eligible.
Qed.

Lemma get_current_file_is_current_task_witness :
  get_current_file (workflow_status fresh_helper)
  = Ok (current_task QToolsProject_files (workflow_status fresh_helper))
  /\ (forall id,
         get_current_file (workflow_status fresh_helper) = Ok (Some id) ->
         In id (all_ids QToolsProject_files))
  /\ (get_current_file (workflow_status fresh_helper) = Ok None
      <-> every_record_completed (workflow_status fresh_helper)).
Proof.
  apply (@get_current_file_is_current_task QToolsProject_files
           (workflow_status fresh_helper)).
  - exact QToolsProject_files_distinct.
  - exact QToolsProject_files_closed.
  - exact QToolsProject_files_acyclic.
  - split; [reflexivity|].
    intros id t Hin. simpl in Hin.
    repeat (destruct Hin as [[= <- <-]|Hin]; [reflexivity|]).
    contradiction.
Defined.

(** ** The record mapping stays a state over the registry *)

Lemma get_map_values {A B : Type} (f : A -> B) (d : dict A) (k : string) :
  get k (map (fun kv => (fst kv, f (snd kv))) d) = option_map f (get k d).
Proof.
  induction d as [|[k' v] d IH]; simpl; [reflexivity|].
  destruct (String.eqb k' k); [reflexivity|exact IH].
Qed.

Lemma setitem_new {V : Type} (k : string) (v : V) (d : dict V) :
  ~ In k (keys d) -> setitem k v d = d ++ [(k, v)].
Proof.
  induction d as [|[k' v'] d IH]; simpl; [reflexivity|].
  intros Hnotin. destruct (String.eqb_spec k' k) as [->|Hne].
  - exfalso. apply Hnotin. now left.
  - f_equal. apply IH. intros Hin. apply Hnotin. now right.
Qed.

Lemma seed_from_appends (now : clock) files :
  forall i ws, NoDup (keys ws ++ keys files) ->
    seed_from now i files ws = ws ++ seeded now i files.
Proof.
  induction files as [|[k info] files IH]; intros i ws Hnd; simpl.
  - now rewrite app_nil_r.
  - simpl in Hnd. rewrite setitem_new.
    + rewrite IH.
      * now rewrite <- app_assoc.
      * unfold keys. rewrite map_app. simpl. rewrite <- app_assoc. exact Hnd.
    + apply NoDup_remove_2 in Hnd. intros Hin. apply Hnd.
      apply in_or_app. now left.
Qed.

Lemma keys_seeded (now : clock) files : forall i,
  keys (seeded now i files) = keys files.
Proof.
  induction files as [|[k info] files IH]; intros i; simpl; [reflexivity|].
  f_equal. apply IH.
Qed.

Lemma in_seeded (now : clock) files k t : forall i,
  In (k, t) (seeded now i files) ->
  exists info time, In (k, info) files /\ t = initial_tracker time k info.
Proof.
  induction files as [|[k' info'] files IH]; intros i; simpl; [intros []|].
  intros [[= <- <-]|Hin].
  - exists info', (now i). split; [now left|reflexivity].
  - destruct (IH _ Hin) as (info & time & Hin' & ->).
    exists info, time. split; [now right|reflexivity].
Qed.

Lemma seeded_is_aligned (now : clock) files :
  NoDup (all_ids files) -> aligned files (seed_from now 0 files []).
Proof.
  intros Hnd. rewrite seed_from_appends by exact Hnd. simpl. split.
  - apply keys_seeded.
  - intros id t Hin. apply in_seeded in Hin.
    destruct Hin as (info & time & Hin & ->). simpl.
    unfold registry_dependencies, dependencies_of, graph_of_files.
    rewrite get_map_values. now rewrite (@in_get _ files id info Hnd Hin).
Qed.

Lemma in_alter {V : Type} (f : V -> V) (k : string) (d : dict V) k' v' :
  In (k', v') (alter f k d) ->
  exists v, In (k', v) d /\ (v' = v \/ v' = f v).
Proof.
  induction d as [|[k0 v0] d IH]; simpl; [intros []|].
  destruct (String.eqb k0 k).
  - intros [[= <- <-]|Hin].
    + exists v0. split; [now left|now right].
    + exists v'. split; [now right|now left].
  - intros [[= <- <-]|Hin].
    + exists v0. split; [now left|now left].
    + destruct (IH Hin) as (v & Hv & Hv'). exists v. split; [now right|auto].
Qed.

(** Every invocation that returns keeps the mapping aligned with the
    registry, so alignment holds in all states reached from a first run. *)
Lemma invoke_keeps_aligned files (a : Action) now h b h' :
  aligned files (workflow_status h) ->
  invoke a now h = Ok (b, h') ->
  aligned files (workflow_status h').
Proof.
  intros [Hkeys Hdeps]. rewrite invoke_on_current. intros H.
  apply on_current_ok in H.
  destruct H as [[_ ->]|[_ (f & _ & _ & ->)]]; [now split|].
  rewrite workflow_status_save. cbn [workflow_status with_status]. split.
  - now rewrite keys_alter.
  - intros id t Hin. apply in_alter in Hin.
    destruct Hin as (t0 & Hin & [->| ->]).
    + now apply Hdeps.
    + rewrite mutation_keeps_dependencies. now apply Hdeps.
Qed.

(** ** Saving and loading *)

Lemma FileStatus_of_value_value (s : FileStatus) :
  FileStatus_of_value (FileStatus_value s) = Ok s.
Proof. destruct s; reflexivity. Qed.

Lemma ScenarioLevel_of_value_value (s : ScenarioLevel) :
  ScenarioLevel_of_value (ScenarioLevel_value s) = Ok s.
Proof. destruct s; reflexivity. Qed.

Lemma WorkflowState_of_name_name (s : WorkflowState) :
  WorkflowState_of_name (WorkflowState_name s) = Ok s.
Proof. destruct s; reflexivity. Qed.

Lemma load_tracker_dump (t : WorkflowTracker) :
  load_tracker (dump_tracker t) = Ok t.
Proof.
  unfold load_tracker. cbn [dump_tracker raw_status raw_scenario
                            raw_workflow_state].
  rewrite FileStatus_of_value_value. cbn [bind].
  rewrite ScenarioLevel_of_value_value. cbn [bind].
  rewrite WorkflowState_of_name_name. cbn [bind].
  destruct t; reflexivity.
Qed.

Lemma load_items_dump (ws : dict WorkflowTracker) :
  load_items (map (fun kv => (fst kv, dump_tracker (snd kv))) ws) = Ok ws.
Proof.
  induction ws as [|[k t] ws IH]; [reflexivity|].
  cbn [map load_items fst snd]. rewrite load_tracker_dump. cbn [bind].
  rewrite IH. reflexivity.
Qed.

(** C7.  Loading the file that [save_workflow_status] wrote gives back
    the mapping that was saved: same ids in the same order, and under
    each id a record equal in all fifteen fields.  This holds for every
    mapping, and both for a reload by the same helper and for the helper
    the next process builds from the file. *)
Theorem save_then_load_is_identity
    (h : Helper) (now : clock) :
  load_workflow_status now (save_workflow_status h)
  = Ok (save_workflow_status h)
  /\ workflow_status (save_workflow_status h) = workflow_status h
  /\ exists h',
       QToolsWorkflowHelper_init (project h)
         (workflow_file (save_workflow_status h)) now = Ok h'
       /\ workflow_status h' = workflow_status h
       /\ workflow_file h' = workflow_file (save_workflow_status h).
Proof.
  split; [|split; [reflexivity|]].
  - unfold load_workflow_status.
    cbn [save_workflow_status with_file workflow_file].
    rewrite load_items_dump. destruct h; reflexivity.
  - eexists. split.
    + unfold QToolsWorkflowHelper_init, load_workflow_status.
      cbn [save_workflow_status with_file workflow_file].
      rewrite load_items_dump. cbn [bind]. reflexivity.
    + split; reflexivity.
Qed.

(** ** Malformed files *)

Lemma existsb_false_find {A : Type} (f : A -> bool) (l : list A) :
  existsb f l = false -> find f l = None.
Proof.
  induction l as [|a l IH]; simpl; [reflexivity|].
  destruct (f a); simpl; [discriminate|exact IH].
Qed.


Lemma load_tracker_malformed (v : RawTracker) :
  known_status (raw_status v) = false
  \/ known_scenario (raw_scenario v) = false
  \/ known_gate (raw_workflow_state v) = false ->
  exists e, load_tracker v = Raise e.
Proof.
  unfold load_tracker, known_status, known_scenario, known_gate.
  unfold FileStatus_of_value, ScenarioLevel_of_value, WorkflowState_of_name.
  intros [H|[H|H]]; apply existsb_false_find in H.
  - rewrite H. eexists. reflexivity.
  - destruct (find _ all_FileStatus); [|eexists; reflexivity].
    cbn [bind]. rewrite H. eexists. reflexivity.
  - destruct (find _ all_FileStatus); [|eexists; reflexivity].
    cbn [bind].
    destruct (find _ all_ScenarioLevel); [|eexists; reflexivity].
    cbn [bind]. rewrite H. eexists. reflexivity.
Qed.

Lemma load_items_malformed (data : dict RawTracker) k v :
  In (k, v) data -> (exists e, load_tracker v = Raise e) ->
  exists e, load_items data = Raise e.
Proof.
  intros Hin (e & He).
  induction data as [|[k' v'] data IH]; [destruct Hin|].
  cbn [load_items]. destruct Hin as [[= -> ->]|Hin].
  - rewrite He. eexists. reflexivity.
  - destruct (load_tracker v'); [|eexists; reflexivity]. cbn [bind].
    destruct (IH Hin) as (e' & ->). eexists. reflexivity.
Qed.

(** *** The loader on an arbitrary file *)











(** The loader names the unknown gate in the [KeyError] it raises. *)
Lemma unknown_gate_raises_KeyError :
  load_state_file (file_of_content (Parsed bogus_data))
  = Raise (KeyError "REVIEWED").
Proof. vm_compute. reflexivity. Qed.




(** ** The rollback commands *)

(** C4, the claim as stated fails.  The method [request_test_changes]
    of the helper does not look at its comment: called with the empty
    string on a record in [TESTS_PROVIDED] it returns [True], moves the
    gate back to [ISSUE_CREATED], appends the empty string to the test
    review log, stamps the record and saves the mapping. *)
Lemma request_test_changes_accepts_empty_comment :
  get_current_file (workflow_status tests_provided_helper)
  = Ok (Some "src/utils/types.rs")
  /\ option_map workflow_state
       (get "src/utils/types.rs" (workflow_status tests_provided_helper))
     = Some TESTS_PROVIDED
  /\ exists h,
       request_test_changes "" "t2" tests_provided_helper = Ok (true, h)
       /\ option_map workflow_state
            (get "src/utils/types.rs" (workflow_status h))
          = Some ISSUE_CREATED
       /\ option_map test_review_comments
            (get "src/utils/types.rs" (workflow_status h))
          = Some [""]
       /\ option_map last_updated
            (get "src/utils/types.rs" (workflow_status h))
          = Some "t2"
       /\ workflow_file h <> workflow_file tests_provided_helper
       /\ in_sync h.
Proof.
  split; [vm_compute; reflexivity|]. split; [vm_compute; reflexivity|].
  eexists. split; [vm_compute; reflexivity|].
  split; [reflexivity|]. split; [reflexivity|]. split; [reflexivity|].
  split; [|vm_compute; reflexivity].
  vm_compute. discriminate.
Qed.

(** C4 as amended.  The shell command [request_test_changes] entered
    without a comment (the line typed at the prompt is empty or blank) is
    refused with the message that asks for one, and nothing changes: the
    helper, hence every record, its gate and its review log, and the
    state file are what they were.  The refusal is a printed line; no
    exception is raised. *)
Theorem request_test_changes_needs_comment
    (line : string) (now : string) (h : Helper) :
  strip line = "" ->
  do_request_test_changes line now h
  = Ok (h, ["Please provide a comment explaining the needed changes."]).
Proof.
  intros Hblank. unfold do_request_test_changes. rewrite Hblank.
  reflexivity.
Qed.

Lemma request_test_changes_needs_comment_witness :
  option_map workflow_state
    (get "src/utils/types.rs" (workflow_status tests_provided_helper))
  = Some TESTS_PROVIDED
  /\ do_request_test_changes "   " "t2" tests_provided_helper
     = Ok (tests_provided_helper,
           ["Please provide a comment explaining the needed changes."]).
Proof.
  split; [reflexivity|].
  apply (@request_test_changes_needs_comment "   " "t2"
           tests_provided_helper).
  reflexivity.
Defined.

Lemma request_implementation_changes_is_missing
    (line : string) (now : string) (h : Helper) :
  strip line <> "" ->
  do_request_implementation_changes line now h
  = Raise (AttributeError "request_implementation_changes").
Proof.
  intros Hcomment. unfold do_request_implementation_changes.
  destruct (String.eqb_spec (strip line) ""); [contradiction|reflexivity].
Qed.

(** C3, at the failing input.  The first file is in
    [IMPLEMENTATION_PROVIDED]; the command with the comment
    ["tighten the loop"] looks up a method the helper does not have and
    raises [AttributeError], so the gate is not moved to [TESTS_REVIEWED]
    and the comment is not logged. *)
Theorem request_implementation_changes_raises :
  get_current_file (workflow_status implementation_provided_helper)
  = Ok (Some "src/utils/types.rs")
  /\ option_map workflow_state
       (get "src/utils/types.rs"
            (workflow_status implementation_provided_helper))
     = Some IMPLEMENTATION_PROVIDED
  /\ do_request_implementation_changes "tighten the loop" "t2"
       implementation_provided_helper
     = Raise (AttributeError "request_implementation_changes").
Proof.
  split; [reflexivity|]. split; [reflexivity|].
  apply request_implementation_changes_is_missing. discriminate.
Qed.

(** C10.  [request_test_changes] writes the gate, the test review log
    and the time stamp of the current record and nothing else.  On a
    record in [TESTS_PROVIDED] whose status is [tests_written], as
    [record_tests] leaves it, the gate becomes [ISSUE_CREATED] while the
    status stays [tests_written], in the helper and in the state file. *)
Theorem request_test_changes_leaves_status
    (comment : string) (now : string) (h : Helper) (f : string)
    (t : WorkflowTracker) :
  get_current_file (workflow_status h) = Ok (Some f) ->
  f <> "" ->
  get f (workflow_status h) = Some t ->
  workflow_state t = TESTS_PROVIDED ->
  status t = FS_TESTS_WRITTEN ->
  exists h' data,
    request_test_changes comment now h = Ok (true, h')
    /\ get f (workflow_status h')
       = Some (mkTracker (source_file t) (test_file t) (example_file t)
                 FS_TESTS_WRITTEN (scenario t) ISSUE_CREATED
                 (issue_number t) now (notes t) (dependencies t)
                 (acceptance_criteria t) (test_review_comments t ++ [comment])
                 (implementation_review_comments t)
                 (documentation_review_comments t)
                 (examples_review_comments t))
    /\ workflow_file h' = Some (Parsed data)
    /\ option_map raw_status (get f data) = Some "tests_written"
    /\ option_map raw_workflow_state (get f data) = Some "ISSUE_CREATED".
Proof.
  intros Hc Hf Ht Hgate Hstatus.
  unfold request_test_changes.
  rewrite (on_current_some _ _ Hc Hf).
  eexists. eexists. split; [reflexivity|].
  rewrite workflow_status_save.
  cbn [workflow_status with_status save_workflow_status with_file
       workflow_file].
  split; [|split; [reflexivity|]].
  - rewrite get_alter_same, Ht. simpl. rewrite <- Hstatus. reflexivity.
  - rewrite !get_map_values, get_alter_same, Ht. simpl.
    rewrite Hstatus. split; reflexivity.
Qed.

Lemma record_tests_sets_status (now : string) (h : Helper) (f : string) :
  get_current_file (workflow_status h) = Ok (Some f) ->
  f <> "" ->
  exists t h',
    record_tests now h = Ok (true, h')
    /\ get f (workflow_status h') = Some t
    /\ workflow_state t = TESTS_PROVIDED
    /\ status t = FS_TESTS_WRITTEN.
Proof.
  intros Hc Hf. destruct (current_file_is_key _ Hc) as (t & Ht).
  unfold record_tests. rewrite (on_current_some _ _ Hc Hf).
  eexists. eexists. split; [reflexivity|].
  rewrite workflow_status_save. cbn [workflow_status with_status].
  rewrite get_alter_same, Ht. simpl. repeat split.
Qed.

Lemma request_test_changes_leaves_status_witness :
  exists t h' data,
    get "src/utils/types.rs" (workflow_status tests_provided_helper) = Some t
    /\ request_test_changes "cover the empty series" "t2"
         tests_provided_helper = Ok (true, h')
    /\ get "src/utils/types.rs" (workflow_status h')
       = Some (mkTracker (source_file t) (test_file t) (example_file t)
                 FS_TESTS_WRITTEN (scenario t) ISSUE_CREATED
                 (issue_number t) "t2" (notes t) (dependencies t)
                 (acceptance_criteria t)
                 (test_review_comments t ++ ["cover the empty series"])
                 (implementation_review_comments t)
                 (documentation_review_comments t)
                 (examples_review_comments t))
    /\ workflow_file h' = Some (Parsed data)
    /\ option_map raw_status (get "src/utils/types.rs" data)
       = Some "tests_written"
    /\ option_map raw_workflow_state (get "src/utils/types.rs" data)
       = Some "ISSUE_CREATED".
Proof.
  eexists.
  destruct (@request_test_changes_leaves_status
              "cover the empty series" "t2" tests_provided_helper
              "src/utils/types.rs" _
              eq_refl ltac:(discriminate) eq_refl eq_refl eq_refl)
    as (h' & data & H).
  exists h', data. split; [reflexivity|exact H].
Defined.

(** ** Start-up and the dependency graph *)

Lemma seeded_is_pending (now : clock) files i k t :
  In (k, t) (seeded now i files) -> workflow_state t = PENDING.
Proof.
  intros Hin. apply in_seeded in Hin.
  destruct Hin as (info & time & _ & ->). reflexivity.
Qed.

(** Start-up does not inspect the graph for cycles: a first run over any
    registry with distinct ids and no dangling reference reaches the
    prompt. *)
Lemma first_run_reaches_prompt (files : dict FileInfo) (now : clock) :
  NoDup (all_ids files) ->
  closed (graph_of_files files) ->
  exists h, QToolsPrompt_init files None now = Ok h
            /\ aligned files (workflow_status h)
            /\ forall id t, In (id, t) (workflow_status h) ->
                            workflow_state t = PENDING.
Proof.
  intros Hnd Hclosed.
  pose (ws := seed_from now 0 files []).
  assert (Hal : aligned files ws) by now apply seeded_is_aligned.
  assert (Hpending : forall id t, In (id, t) ws -> workflow_state t = PENDING).
  { intros id t Hin. unfold ws in Hin.
    rewrite seed_from_appends in Hin by exact Hnd.
    now apply seeded_is_pending with now files 0 id. }
  exists (save_workflow_status (with_status ws (mkHelper files None []))).
  split; [|split; [exact Hal|exact Hpending]].
  unfold QToolsPrompt_init, QToolsWorkflowHelper_init, load_workflow_status.
  cbn [workflow_file project workflow_status bind]. fold ws.
  assert (Hstatus : do_status
            (save_workflow_status (with_status ws (mkHelper files None [])))
            = Ok tt).
  { unfold do_status, show_progress, get_next_action.
    rewrite workflow_status_save. cbn [workflow_status with_status].
    rewrite (get_current_file_refines Hnd Hclosed Hal). cbn [bind].
    destruct (no_file (current_task files ws)) eqn:Hn; [reflexivity|].
    destruct (current_task files ws) as [f|] eqn:Hf; [|discriminate].
    cbn [str_of]. unfold current_task in Hf. apply find_some in Hf.
    destruct Hf as [Hf _].
    assert (Hkey : In f (keys ws)) by (destruct Hal as [-> _]; exact Hf).
    destruct (key_has_value ws f Hkey) as (t & Ht).
    unfold getitem at 1. rewrite Ht. cbn [bind].
    assert (Hp : workflow_state t = PENDING).
    { apply get_some_in in Ht. now apply Hpending with f. }
    rewrite Hp. cbn [workflow_sequence bind snd fst].
    unfold get_issue_creation_instructions.
    rewrite workflow_status_save. cbn [workflow_status with_status].
    unfold getitem at 1. rewrite Ht. cbn [bind].
    destruct (key_has_value files f Hf) as (info & Hinfo).
    unfold getitem. cbn [save_workflow_status with_file with_status project].
    rewrite Hinfo. reflexivity. }
  rewrite Hstatus. reflexivity.
Qed.

Lemma looping_data_cycle : ~ acyclic (graph_of_data looping_data).
Proof.
  intros H. apply (H "src/utils/types.rs").
  apply t_trans with "src/signal/weak_signal.rs"; apply t_step; split;
    simpl; auto.
Qed.

Lemma dangling_data_open : ~ closed (graph_of_data dangling_data).
Proof.
  intros H.
  assert (Hin : In "src/missing.rs" (keys (graph_of_data dangling_data))).
  { apply H with "src/signal/weak_signal.rs". split; simpl; auto. }
  simpl in Hin. intuition discriminate.
Qed.

(** Nothing at start-up inspects the dependency lists read from the state
    file: the prompt is reached from a file whose lists form a cycle (no
    record is then ever eligible), and from one with a dangling reference
    behind an unfinished dependency. *)
Lemma state_file_graph_is_not_inspected :
  (~ acyclic (graph_of_data looping_data)
   /\ exists h, main (Some (Parsed looping_data)) (always "t0") = Prompting h
                /\ get_current_file (workflow_status h) = Ok None)
  /\ (~ closed (graph_of_data dangling_data)
      /\ exists h, main (Some (Parsed dangling_data)) (always "t0") = Prompting h).
Proof.
  split.
  - split; [exact looping_data_cycle|]. eexists. split; reflexivity.
  - split; [exact dangling_data_open|]. eexists. reflexivity.
Qed.

(** The registry of the program has distinct ids, no dangling reference
    and no cycle, and a first run over it reaches the prompt with one
    [PENDING] record per entry, in registration order, carrying the
    entry's dependencies. *)
Lemma first_run_of_the_program (now : clock) :
  exists h,
    main None now = Prompting h
    /\ aligned QToolsProject_files (workflow_status h)
    /\ forall id t, In (id, t) (workflow_status h) ->
                    workflow_state t = PENDING.
Proof.
  destruct (@first_run_reaches_prompt QToolsProject_files now
              QToolsProject_files_distinct QToolsProject_files_closed)
    as (h & Hinit & Hal & Hpending).
  exists h. unfold main. rewrite Hinit. auto.
Qed.

(** ** After a recording method *)

Section AlterSchedule.
Variable f : WorkflowTracker -> WorkflowTracker.
Variable k : string.

Lemma getitem_alter_completed ws d :
  (forall t, get k ws = Some t -> harmless f t) ->
  bind (getitem d (alter f k ws)) (fun t => Ok (is_completed t))
  = bind (getitem d ws) (fun t => Ok (is_completed t)).
Proof.
  intros Hk. unfold getitem. destruct (String.eqb_spec d k) as [->|Hne].
  - rewrite get_alter_same. destruct (get k ws) as [t|] eqn:Ht;
      [|reflexivity].
    simpl. now rewrite (proj1 (Hk t eq_refl)).
  - now rewrite get_alter_other.
Qed.

Lemma deps_completed_alter ws deps :
  (forall t, get k ws = Some t -> harmless f t) ->
  deps_completed (alter f k ws) deps = deps_completed ws deps.
Proof.
  intros Hk. induction deps as [|d deps IH]; [reflexivity|].
  cbn [deps_completed].
  assert (H := getitem_alter_completed ws d Hk).
  destruct (getitem d (alter f k ws)) as [t'|e'];
    destruct (getitem d ws) as [t|e]; cbn [bind] in *;
    try discriminate; try congruence.
  injection H as ->. now rewrite IH.
Qed.

Lemma next_task_from_alter ws todo :
  (forall t, get k ws = Some t -> harmless f t) ->
  (forall t, In (k, t) todo -> harmless f t) ->
  next_task_from (alter f k ws) (alter f k todo) = next_task_from ws todo.
Proof.
  intros Hk. induction todo as [|[k' t] todo IH]; intros Htodo;
    [reflexivity|].
  cbn [alter]. destruct (String.eqb_spec k' k) as [->|Hne].
  - destruct (Htodo t (or_introl eq_refl)) as [Hc Hd].
    cbn [next_task_from]. rewrite Hc, Hd, deps_completed_alter by exact Hk.
    destruct (is_completed t); cbn [negb].
    + clear IH. induction todo as [|[k2 t2] todo IH2]; [reflexivity|].
      cbn [next_task_from].
      rewrite deps_completed_alter by exact Hk.
      rewrite IH2; [reflexivity|].
      intros t' Hin. apply Htodo. destruct Hin as [Hin|Hin];
        [now left|right; now right].
    + destruct (deps_completed ws (dependencies t)) as [[|]|e];
        cbn [bind]; try reflexivity.
      clear IH. induction todo as [|[k2 t2] todo IH2]; [reflexivity|].
      cbn [next_task_from].
      rewrite deps_completed_alter by exact Hk.
      rewrite IH2; [reflexivity|].
      intros t' Hin. apply Htodo. destruct Hin as [Hin|Hin];
        [now left|right; now right].
  - cbn [next_task_from]. rewrite deps_completed_alter by exact Hk.
    rewrite IH; [reflexivity|].
    intros t' Hin. apply Htodo. now right.
Qed.
End AlterSchedule.

Lemma mutation_is_harmless (a : Action) (now : string) (t : WorkflowTracker) :
  is_completed t = false -> harmless (mutation a now) t.
Proof.
  intros Hc. split; [|apply mutation_keeps_dependencies].
  rewrite Hc. unfold is_completed. rewrite mutation_sets_target.
  destruct a; reflexivity.
Qed.

(** The file a method worked on is still the current file afterwards. *)
Lemma invoke_keeps_current_file (a : Action) now h b h' :
  NoDup (keys (workflow_status h)) ->
  invoke a now h = Ok (b, h') ->
  get_current_file (workflow_status h')
  = get_current_file (workflow_status h).
Proof.
  intros Hnd. rewrite invoke_on_current. intros H.
  apply on_current_ok in H.
  destruct H as [[_ ->]|[_ (f & Hc & _ & ->)]]; [reflexivity|].
  rewrite workflow_status_save. cbn [workflow_status with_status].
  destruct (current_file_has_record _ Hc) as (t & Hin & Hundone).
  assert (Hget : get f (workflow_status h) = Some t) by now apply in_get.
  unfold get_current_file, get_next_task.
  rewrite next_task_from_alter; [reflexivity| |].
  - intros t' Ht'. rewrite Hget in Ht'. injection Ht' as <-.
    now apply mutation_is_harmless.
  - intros t' Hin'. apply (@in_get _ _ f t' Hnd) in Hin'.
    rewrite Hget in Hin'. injection Hin' as <-.
    now apply mutation_is_harmless.
Qed.

(** After a method that returned, [do_next] does not raise: a command
    that changed the helper hands the changed helper back. *)
Lemma then_next_returns (a : Action) now h r :
  NoDup (keys (workflow_status h)) ->
  invoke a now h = Ok r ->
  then_next r = Ok (snd r, []).
Proof.
  intros Hnd H. destruct r as [b h'].
  assert (Hcur := invoke_keeps_current_file a now h Hnd H).
  rewrite invoke_on_current in H. apply on_current_ok in H.
  destruct H as [[-> ->]|[-> (f & Hc & Hf & Hh')]]; [reflexivity|].
  unfold then_next, do_next, get_next_action. cbn [fst snd].
  rewrite Hcur, Hc. cbn [bind].
  apply no_file_some in Hf. rewrite Hf. cbn [str_of].
  destruct (current_file_is_key _ Hc) as (t & Ht).
  assert (Ht' : get f (workflow_status h') = Some (mutation a now t)).
  { rewrite Hh', workflow_status_save. cbn [workflow_status with_status].
    now rewrite get_alter_same, Ht. }
  unfold getitem at 1. rewrite Ht'. cbn [bind].
  rewrite mutation_sets_target.
  destruct a; cbn [target workflow_sequence bind fst snd];
    unfold get_test_request_instructions, get_static_instructions,
      getitem; try rewrite Ht'; reflexivity.
Qed.

(** Without a current file a method returns [False] and changes nothing. *)
Lemma invoke_without_current_file (a : Action) now h current_file :
  get_current_file (workflow_status h) = Ok current_file ->
  no_file current_file = true ->
  invoke a now h = Ok (false, h).
Proof.
  intros Hc Hn. rewrite invoke_on_current.
  now apply on_current_none with current_file.
Qed.

(** The guard of the [issue] command: when the current step is not the
    creation of an issue, the command is refused and nothing changes. *)
Lemma do_issue_refuses_other_steps (arg : string) now h action :
  arg <> "" ->
  get_next_action h = Ok action ->
  action <> "Create GitHub Issue" ->
  do_issue arg now h
  = Ok (h, ["Current step is not issue creation. Type 'next' to see current step."]).
Proof.
  intros Harg Hact Hne. unfold do_issue.
  destruct (String.eqb_spec arg ""); [contradiction|].
  rewrite Hact. cbn [bind].
  destruct (String.eqb_spec action "Create GitHub Issue");
    [contradiction|reflexivity].
Qed.

(** * Further properties of the code *)

(** ** What the scheduler guarantees about the file it returns *)

Lemma deps_completed_true ws deps :
  deps_completed ws deps = Ok true ->
  forall d, In d deps ->
    exists td, get d ws = Some td /\ workflow_state td = COMPLETED.
Proof.
  induction deps as [|d0 deps IH]; intros H d Hd; [destruct Hd|].
  cbn [deps_completed] in H. unfold getitem in H.
  destruct (get d0 ws) as [t0|] eqn:Ht0; [|discriminate].
  cbn [bind] in H. destruct (is_completed t0) eqn:Hc; [|discriminate].
  destruct Hd as [<-|Hd].
  - exists t0. split; [exact Ht0|now apply is_completed_iff].
  - now apply IH.
Qed.

(** X1.  A file that [get_current_file] returns has a record that is not
    [COMPLETED], and every id in that record's dependency list has a
    record whose gate is [COMPLETED]: a file is never offered while one
    of its dependencies is unfinished or unknown. *)
Theorem current_file_is_gated (ws : dict WorkflowTracker) (f : string) :
  get_current_file ws = Ok (Some f) ->
  exists t,
    In (f, t) ws
    /\ workflow_state t <> COMPLETED
    /\ forall d, In d (dependencies t) ->
         exists td, get d ws = Some td /\ workflow_state td = COMPLETED.
Proof.
  unfold get_current_file, get_next_task. intros H. bind_inv H.
  destruct a as [[source deps]|]; [|discriminate]. injection H as ->.
  apply next_task_from_some in E.
  destruct E as (t & Hin & Hc & _ & Hdeps).
  exists t. split; [exact Hin|]. split.
  - intros Hdone. apply is_completed_iff in Hdone. congruence.
  - now apply deps_completed_true.
Qed.

Lemma current_file_is_gated_witness :
  exists t,
    In ("src/utils/types.rs", t) (workflow_status tests_provided_helper)
    /\ workflow_state t <> COMPLETED
    /\ forall d, In d (dependencies t) ->
         exists td, get d (workflow_status tests_provided_helper) = Some td
                    /\ workflow_state td = COMPLETED.
Proof.
  apply (@current_file_is_gated (workflow_status tests_provided_helper)
           "src/utils/types.rs").
  reflexivity.
Defined.

(** ** The methods never finish a record *)

Lemma invoke_keeps_keys (a : Action) now h b h' :
  invoke a now h = Ok (b, h') ->
  keys (workflow_status h') = keys (workflow_status h).
Proof.
  rewrite invoke_on_current. intros H. apply on_current_ok in H.
  destruct H as [[_ ->]|[_ (f & _ & _ & ->)]]; [reflexivity|].
  rewrite workflow_status_save. cbn [workflow_status with_status].
  apply keys_alter.
Qed.

Lemma invoke_keeps_completion (a : Action) now h b h' (id : string) :
  NoDup (keys (workflow_status h)) ->
  invoke a now h = Ok (b, h') ->
  completed_in (workflow_status h') id = completed_in (workflow_status h) id.
Proof.
  intros Hnd. rewrite invoke_on_current. intros H. apply on_current_ok in H.
  destruct H as [[_ ->]|[_ (f & Hc & _ & ->)]]; [reflexivity|].
  rewrite workflow_status_save. cbn [workflow_status with_status].
  unfold completed_in. destruct (String.eqb_spec id f) as [->|Hne].
  - rewrite get_alter_same.
    destruct (current_file_has_record _ Hc) as (t & Hin & Hundone).
    rewrite (@in_get _ _ f t Hnd Hin). simpl.
    rewrite Hundone. unfold is_completed. rewrite mutation_sets_target.
    destruct a; reflexivity.
  - now rewrite get_alter_other.
Qed.

(** X2.  No sequence of calls of the recording methods finishes a record
    or moves the scheduler: after the calls, every id is completed exactly
    if it was before, and [get_current_file] returns what it returned
    before.  No method writes [COMPLETED], so the work never passes from
    the current file to the next one. *)
Theorem methods_never_complete
    (actions : list Action) (now : string) (h h' : Helper) :
  NoDup (keys (workflow_status h)) ->
  invoke_all actions now h = Ok h' ->
  get_current_file (workflow_status h')
  = get_current_file (workflow_status h)
  /\ forall id, completed_in (workflow_status h') id
                = completed_in (workflow_status h) id.
Proof.
  revert h. induction actions as [|a actions IH]; intros h Hnd H.
  - injection H as <-. now split.
  - cbn [invoke_all] in H. bind_inv H. destruct a0 as [b h1].
    cbn [snd] in H.
    assert (Hnd1 : NoDup (keys (workflow_status h1))).
    { now rewrite (invoke_keeps_keys _ _ _ E). }
    destruct (IH h1 Hnd1 H) as [Hcur Hdone]. split.
    + rewrite Hcur. now apply invoke_keeps_current_file with a now b.
    + intros id. rewrite Hdone.
      now apply invoke_keeps_completion with a now b.
Qed.

Lemma methods_never_complete_witness :
  get_current_file (workflow_status implementation_provided_helper)
  = get_current_file (workflow_status fresh_helper)
  /\ forall id,
       completed_in (workflow_status implementation_provided_helper) id
       = completed_in (workflow_status fresh_helper) id.
Proof.
  apply (@methods_never_complete
           [RecordIssue "7"; RecordTests; ApproveTests None;
            RecordImplementation] "t1" fresh_helper
           implementation_provided_helper).
  - exact QToolsProject_files_distinct.
  - vm_compute. reflexivity.
Defined.

(** ** A dependency without a record *)

Lemma deps_completed_missing ws (finished : list string) (d : string)
    (rest : list string) :
  (forall x, In x finished -> completed_in ws x = true) ->
  get d ws = None ->
  deps_completed ws (finished ++ d :: rest) = Raise (KeyError d).
Proof.
  intros Hfin Hd. induction finished as [|x finished IH]; cbn [app].
  - cbn [deps_completed]. unfold getitem. now rewrite Hd.
  - cbn [deps_completed]. unfold getitem.
    assert (Hx := Hfin x (or_introl eq_refl)). unfold completed_in in Hx.
    destruct (get x ws) as [tx|]; [|discriminate]. cbn [bind].
    rewrite Hx. apply IH. intros y Hy. apply Hfin. now right.
Qed.

Lemma next_task_from_skips_completed ws before todo :
  (forall k t, In (k, t) before -> is_completed t = true) ->
  next_task_from ws (before ++ todo) = next_task_from ws todo.
Proof.
  intros Hdone. induction before as [|[k t] before IH]; [reflexivity|].
  cbn [app next_task_from].
  rewrite (Hdone k t (or_introl eq_refl)). cbn [negb].
  apply IH. intros k' t' Hin. apply (Hdone k' t'). now right.
Qed.

(** X3.  A dependency id without a record makes the scheduler raise
    [KeyError] as soon as it is looked at: when the first unfinished
    record lists, after dependencies that are all completed, an id that
    is not a key of the mapping, [get_current_file] raises [KeyError] for
    that id and returns no file at all. *)
Theorem missing_dependency_raises
    (before after : dict WorkflowTracker) (k : string) (t : WorkflowTracker)
    (finished : list string) (d : string) (rest : list string) :
  let ws := before ++ (k, t) :: after in
  (forall k' t', In (k', t') before -> workflow_state t' = COMPLETED) ->
  workflow_state t <> COMPLETED ->
  dependencies t = finished ++ d :: rest ->
  (forall x, In x finished -> completed_in ws x = true) ->
  get d ws = None ->
  get_current_file ws = Raise (KeyError d).
Proof.
  intros ws Hbefore Ht Hdeps Hfin Hd.
  unfold get_current_file, get_next_task. unfold ws at 2.
  rewrite next_task_from_skips_completed.
  - cbn [next_task_from].
    destruct (is_completed t) eqn:Hc.
    + apply is_completed_iff in Hc. contradiction.
    + cbn [negb]. rewrite Hdeps.
      now rewrite (deps_completed_missing ws finished d rest Hfin Hd).
  - intros k' t' Hin. apply is_completed_iff. now apply Hbefore with k'.
Qed.

Lemma missing_dependency_raises_witness :
  get_current_file (workflow_status (helper_of_data dangling_first_data))
  = Raise (KeyError "src/missing.rs")
  /\ main (Some (Parsed dangling_first_data)) (always "t1") = Exited 1.
Proof.
  split; [|reflexivity].
  apply (@missing_dependency_raises []
           (workflow_status (helper_of_data dangling_first_data))
           "src/utils/types.rs"
           (mkTracker "src/utils/types.rs" "" None FS_PENDING BASIC PENDING
              None "t0" [] ["src/missing.rs"] [] [] [] [] [])
           [] "src/missing.rs" []).
  - intros k' t' [].
  - discriminate.
  - reflexivity.
  - intros x [].
  - reflexivity.
Defined.

(** ** A finished workflow *)

Lemma all_completed_no_task ws todo :
  (forall k t, In (k, t) todo -> workflow_state t = COMPLETED) ->
  next_task_from ws todo = Ok None.
Proof.
  intros Hdone. rewrite <- (app_nil_r todo).
  rewrite next_task_from_skips_completed; [reflexivity|].
  intros k t Hin. apply is_completed_iff. now apply Hdone with k.
Qed.

(** X4.  Once every record is [COMPLETED] there is no current file, and
    each recording method returns [False] and changes neither the mapping
    nor the state file; [get_next_action] then reports that all files are
    completed. *)
Theorem completed_workflow_refuses
    (a : Action) (now : string) (h : Helper) :
  every_record_completed (workflow_status h) ->
  get_current_file (workflow_status h) = Ok None
  /\ invoke a now h = Ok (false, h)
  /\ get_next_action h = Ok "All Scenario 1 files completed!".
Proof.
  intros Hall.
  assert (Hnone : get_current_file (workflow_status h) = Ok None).
  { unfold get_current_file, get_next_task.
    now rewrite all_completed_no_task. }
  split; [exact Hnone|]. split.
  - now apply invoke_without_current_file with None.
  - unfold get_next_action. rewrite Hnone. reflexivity.
Qed.

Lemma completed_workflow_refuses_witness :
  get_current_file (workflow_status (helper_of_data completed_data))
  = Ok None
  /\ invoke (RecordIssue "9") "t2" (helper_of_data completed_data)
     = Ok (false, helper_of_data completed_data)
  /\ get_next_action (helper_of_data completed_data)
     = Ok "All Scenario 1 files completed!".
Proof.
  apply (@completed_workflow_refuses (RecordIssue "9") "t2"
           (helper_of_data completed_data)).
  intros id t Hin. simpl in Hin.
  repeat (destruct Hin as [[= <- <-]|Hin]; [reflexivity|]).
  contradiction.
Defined.

(** ** The first run and later runs *)

(** X5.  When the state file does not exist, building the helper creates
    one record per registry entry, in registration order, each [PENDING]
    with status [pending], no issue, empty logs, the entry's test file,
    example file, scenario and dependencies, and as time stamp the
    reading of the clock made for that record, and writes the dump of
    these records to the state file at once. *)
Theorem first_run_seeds_and_saves (files : dict FileInfo) (now : clock) :
  NoDup (all_ids files) ->
  exists h,
    QToolsWorkflowHelper_init files None now = Ok h
    /\ workflow_status h = seeded now 0 files
    /\ in_sync h
    /\ project h = files.
Proof.
  intros Hnd. eexists. split; [reflexivity|].
  rewrite workflow_status_save. cbn [workflow_status with_status project].
  split; [|split; reflexivity].
  now rewrite seed_from_appends.
Qed.

Lemma first_run_seeds_and_saves_witness :
  exists h,
    QToolsWorkflowHelper_init QToolsProject_files None ticking = Ok h
    /\ workflow_status h = seeded ticking 0 QToolsProject_files
    /\ in_sync h
    /\ project h = QToolsProject_files.
Proof.
  apply (@first_run_seeds_and_saves QToolsProject_files ticking).
  exact QToolsProject_files_distinct.
Defined.

Lemma find_eqb_value {A : Type} (value : A -> string) (v : string)
    (l : list A) (a : A) :
  find (fun s => String.eqb (value s) v) l = Some a -> value a = v.
Proof.
  intros H. apply find_some in H. destruct H as [_ H].
  now apply String.eqb_eq.
Qed.

Lemma dump_load_tracker (v : RawTracker) (t : WorkflowTracker) :
  load_tracker v = Ok t -> dump_tracker t = v.
Proof.
  unfold load_tracker, FileStatus_of_value, ScenarioLevel_of_value,
    WorkflowState_of_name.
  destruct (find _ all_FileStatus) as [st|] eqn:Est; [|discriminate].
  cbn [bind].
  destruct (find _ all_ScenarioLevel) as [sc|] eqn:Esc; [|discriminate].
  cbn [bind].
  destruct (find _ all_WorkflowState) as [w|] eqn:Ew; [|discriminate].
  cbn [bind]. intros [= <-].
  apply find_eqb_value in Est. apply find_eqb_value in Esc.
  apply find_eqb_value in Ew.
  unfold dump_tracker. cbn. rewrite Est, Esc, Ew. destruct v; reflexivity.
Qed.

Lemma dump_load_items (data : dict RawTracker) (ws : dict WorkflowTracker) :
  load_items data = Ok ws ->
  map (fun kv => (fst kv, dump_tracker (snd kv))) ws = data.
Proof.
  revert ws. induction data as [|[k v] data IH]; intros ws H.
  - injection H as <-. reflexivity.
  - cbn [load_items] in H. bind_inv H. bind_inv H. injection H as <-.
    cbn [map fst snd]. rewrite (dump_load_tracker _ E), (IH _ E0).
    reflexivity.
Qed.

Lemma init_from_file files data now h :
  QToolsWorkflowHelper_init files (Some (Parsed data)) now = Ok h ->
  exists ws, load_items data = Ok ws
             /\ h = mkHelper files (Some (Parsed data)) ws.
Proof.
  unfold QToolsWorkflowHelper_init, load_workflow_status.
  cbn [workflow_file]. intros H. bind_inv H. injection H as <-.
  exists a. split; [exact E|reflexivity].
Qed.

(** X6.  When the state file exists and loads, the helper holds exactly
    the records of the file: the same ids in the same order, nothing added
    from the registry and nothing dropped; the file is left as it is, and
    the dump of what was loaded is the content of the file, so that saving
    the unchanged mapping would write the same file again. *)
Theorem existing_file_is_loaded_as_is
    (files : dict FileInfo) (data : dict RawTracker) (now : clock)
    (h : Helper) :
  QToolsWorkflowHelper_init files (Some (Parsed data)) now = Ok h ->
  keys (workflow_status h) = keys data
  /\ workflow_file h = Some (Parsed data)
  /\ save_workflow_status h = h
  /\ project h = files.
Proof.
  intros H. apply init_from_file in H. destruct H as (ws & E & ->).
  cbn [workflow_status workflow_file project].
  assert (Hdump := dump_load_items _ E).
  split; [|split; [reflexivity|split; [|reflexivity]]].
  - rewrite <- Hdump. unfold keys. rewrite map_map. reflexivity.
  - unfold save_workflow_status, with_file.
    cbn [workflow_status project]. now rewrite Hdump.
Qed.

Lemma existing_file_is_loaded_as_is_witness :
  keys (workflow_status (helper_of_data completed_data)) = keys completed_data
  /\ workflow_file (helper_of_data completed_data)
     = Some (Parsed completed_data)
  /\ save_workflow_status (helper_of_data completed_data)
     = helper_of_data completed_data
  /\ project (helper_of_data completed_data) = QToolsProject_files.
Proof.
  apply (@existing_file_is_loaded_as_is QToolsProject_files completed_data
           (always "t1") (helper_of_data completed_data)).
  vm_compute. reflexivity.
Defined.

(** ** A restart in the middle of a session *)

Lemma init_in_sync files file now h :
  QToolsWorkflowHelper_init files file now = Ok h ->
  in_sync h /\ project h = files.
Proof.
  destruct file as [[|data]|].
  - discriminate.
  - intros H. apply init_from_file in H. destruct H as (ws & E & ->).
    split; [|reflexivity]. unfold in_sync.
    cbn [workflow_file workflow_status]. now rewrite (dump_load_items _ E).
  - intros [= <-]. split; reflexivity.
Qed.

Lemma invoke_keeps_in_sync (a : Action) now h b h' :
  in_sync h -> invoke a now h = Ok (b, h') ->
  in_sync h' /\ project h' = project h.
Proof.
  intros Hs. rewrite invoke_on_current. intros H. apply on_current_ok in H.
  destruct H as [[_ ->]|[_ (f & _ & _ & ->)]]; [now split|].
  split; reflexivity.
Qed.

Lemma invoke_all_keeps_in_sync (actions : list Action) now :
  forall h h', in_sync h -> invoke_all actions now h = Ok h' ->
               in_sync h' /\ project h' = project h.
Proof.
  induction actions as [|a actions IH]; intros h h' Hs H.
  - injection H as <-. now split.
  - cbn [invoke_all] in H. bind_inv H. destruct a0 as [b h1].
    cbn [snd] in H.
    destruct (invoke_keeps_in_sync _ _ Hs E) as [Hs1 Hp1].
    destruct (IH h1 h' Hs1 H) as [Hs' Hp']. split; [exact Hs'|congruence].
Qed.

Lemma restart_in_sync h now :
  in_sync h ->
  QToolsWorkflowHelper_init (project h) (workflow_file h) now = Ok h.
Proof.
  unfold in_sync. intros Hs.
  unfold QToolsWorkflowHelper_init, load_workflow_status.
  cbn [workflow_file]. rewrite Hs, load_items_dump. cbn [bind].
  unfold with_status. cbn [project workflow_file workflow_status].
  rewrite <- Hs. destruct h; reflexivity.
Qed.

(** X7.  At every point of a session the state file is the dump of the
    mapping in memory: after the helper was built, from a state file or
    without one, and any calls of the recording methods were made, a new
    helper built from the state file equals the running one, whatever the
    time of the restart. *)
Theorem restart_restores_session
    (files : dict FileInfo) (file : option FileContent) (now : clock)
    (actions : list Action) (later : string) (h0 h : Helper)
    (restart : clock) :
  QToolsWorkflowHelper_init files file now = Ok h0 ->
  invoke_all actions later h0 = Ok h ->
  QToolsWorkflowHelper_init files (workflow_file h) restart = Ok h.
Proof.
  intros Hinit Hrun.
  destruct (init_in_sync _ _ _ Hinit) as [Hs0 Hp0].
  destruct (invoke_all_keeps_in_sync _ _ Hs0 Hrun) as [Hs Hp].
  rewrite <- Hp0, <- Hp. now apply restart_in_sync.
Qed.

Lemma restart_restores_session_witness :
  QToolsWorkflowHelper_init QToolsProject_files
    (workflow_file implementation_provided_helper) (always "t9")
  = Ok implementation_provided_helper.
Proof.
  apply (@restart_restores_session QToolsProject_files None (always "t0")
           [RecordIssue "7"; RecordTests; ApproveTests None;
            RecordImplementation] "t1" fresh_helper
           implementation_provided_helper (always "t9")).
  - vm_compute. reflexivity.
  - vm_compute. reflexivity.
Defined.

(** ** What the methods leave alone *)

Lemma evolves_refl (t : WorkflowTracker) : evolves t t.
Proof.
  unfold evolves. repeat split; try (exists []; now rewrite app_nil_r).
  now left.
Qed.

Lemma evolves_trans (t1 t2 t3 : WorkflowTracker) :
  evolves t1 t2 -> evolves t2 t3 -> evolves t1 t3.
Proof.
  unfold evolves.
  intros (A1 & A2 & A3 & A4 & A5 & A6 & A7 & A8 & A9
          & (m1 & A10) & (n1 & A11) & A12)
         (B1 & B2 & B3 & B4 & B5 & B6 & B7 & B8 & B9
          & (m2 & B10) & (n2 & B11) & B12).
  repeat split; try congruence.
  - exists (m1 ++ m2). now rewrite B10, A10, app_assoc.
  - exists (n1 ++ n2). now rewrite B11, A11, app_assoc.
  - destruct B12 as [B12|B12]; [|now right].
    rewrite B12. exact A12.
Qed.

Lemma mutation_evolves (a : Action) now (t : WorkflowTracker) :
  evolves t (mutation a now t).
Proof.
  unfold evolves.
  destruct a as [issue| |comment|comment| |comment]; cbn;
    try destruct (truthy comment); cbn;
    repeat split;
    try (exists []; now rewrite app_nil_r);
    try (eexists; reflexivity);
    right; simpl; tauto.
Qed.

Lemma get_alter_cases {V : Type} (f : V -> V) (k id : string) (d : dict V)
    (v' : V) :
  get id (alter f k d) = Some v' ->
  exists v, get id d = Some v /\ (v' = v \/ v' = f v).
Proof.
  destruct (String.eqb_spec id k) as [->|Hne].
  - rewrite get_alter_same. destruct (get k d) as [v|]; [|discriminate].
    intros [= <-]. exists v. auto.
  - rewrite get_alter_other by exact Hne. intros H. exists v'. auto.
Qed.

Lemma invoke_evolves (a : Action) now h b h' (id : string)
    (t' : WorkflowTracker) :
  invoke a now h = Ok (b, h') ->
  get id (workflow_status h') = Some t' ->
  exists t, get id (workflow_status h) = Some t /\ evolves t t'.
Proof.
  rewrite invoke_on_current. intros H. apply on_current_ok in H.
  destruct H as [[_ ->]|[_ (f & _ & _ & ->)]].
  - intros Ht'. exists t'. split; [exact Ht'|apply evolves_refl].
  - rewrite workflow_status_save. cbn [workflow_status with_status].
    intros Ht'. apply get_alter_cases in Ht'.
    destruct Ht' as (t & Ht & [->| ->]); exists t; split; auto.
    + apply evolves_refl.
    + apply mutation_evolves.
Qed.

(** X8.  Over any sequence of calls of the recording methods a record
    keeps its source file, test file, example file, scenario, notes,
    dependencies, acceptance criteria and its documentation and examples
    review logs; its test and implementation review logs only grow at the
    end; and its gate is the old one or one of [ISSUE_CREATED],
    [TESTS_PROVIDED], [TESTS_REVIEWED], [IMPLEMENTATION_PROVIDED],
    [IMPLEMENTATION_REVIEWED]: no method writes a documentation or
    examples gate, and none removes a record or a comment. *)
Theorem methods_only_extend_records
    (actions : list Action) (now : string) (h h' : Helper) (id : string)
    (t' : WorkflowTracker) :
  invoke_all actions now h = Ok h' ->
  get id (workflow_status h') = Some t' ->
  exists t, get id (workflow_status h) = Some t /\ evolves t t'.
Proof.
  revert h. induction actions as [|a actions IH]; intros h H Ht'.
  - injection H as <-. exists t'. split; [exact Ht'|apply evolves_refl].
  - cbn [invoke_all] in H. bind_inv H. destruct a0 as [b h1].
    cbn [snd] in H.
    destruct (IH h1 H Ht') as (t1 & Ht1 & Hev1).
    destruct (invoke_evolves _ _ _ _ E Ht1) as (t & Ht & Hev).
    exists t. split; [exact Ht|]. now apply evolves_trans with t1.
Qed.

Lemma methods_only_extend_records_witness :
  exists t t',
    get "src/utils/types.rs" (workflow_status implementation_provided_helper)
    = Some t'
    /\ get "src/utils/types.rs" (workflow_status fresh_helper) = Some t
    /\ evolves t t'.
Proof.
  eexists. eexists. split; [vm_compute; reflexivity|].
  destruct (@methods_only_extend_records
              [RecordIssue "7"; RecordTests; ApproveTests None;
               RecordImplementation] "t1" fresh_helper
              implementation_provided_helper "src/utils/types.rs" _
              ltac:(vm_compute; reflexivity) ltac:(vm_compute; reflexivity))
    as (t & Ht & Hev).
  vm_compute in Ht. injection Ht as <-. split; [reflexivity|exact Hev].
Defined.

(** ** The shell commands that record *)

Lemma invoke_current (a : Action) now h f t :
  NoDup (keys (workflow_status h)) ->
  get_current_file (workflow_status h) = Ok (Some f) ->
  f <> "" ->
  get f (workflow_status h) = Some t ->
  exists h',
    invoke a now h = Ok (true, h')
    /\ get f (workflow_status h') = Some (mutation a now t)
    /\ get_current_file (workflow_status h') = Ok (Some f)
    /\ NoDup (keys (workflow_status h'))
    /\ then_next (true, h') = Ok (h', []).
Proof.
  intros Hnd Hc Hf Ht.
  assert (Hinv : invoke a now h
                 = Ok (true,
                       save_workflow_status
                         (with_status
                            (alter (mutation a now) f (workflow_status h))
                            h))).
  { rewrite invoke_on_current. exact (on_current_some _ _ Hc Hf). }
  eexists. split; [exact Hinv|]. split; [|split; [|split]].
  - rewrite workflow_status_save. cbn [workflow_status with_status].
    now rewrite get_alter_same, Ht.
  - rewrite (invoke_keeps_current_file _ _ _ Hnd Hinv). exact Hc.
  - now rewrite (invoke_keeps_keys _ _ _ Hinv).
  - exact (then_next_returns _ _ _ Hnd Hinv).
Qed.

(** [strip] removes the no-break space and the next-line character as
    it removes spaces and tabs, and a line made of them is blank. *)
Lemma strip_removes_latin1_blanks :
  strip (String (ascii_of_nat 160)
           ("ok" ++ String (ascii_of_nat 133) (String (ascii_of_nat 9) " ")))
  = "ok"
  /\ strip (String (ascii_of_nat 160) (String (ascii_of_nat 133) "")) = "".
Proof. split; vm_compute; reflexivity. Qed.

(** X9.  The command [approve_tests] on a current file records the
    approval and returns without a message: the gate becomes
    [TESTS_REVIEWED], the status [tests_reviewed], the time stamp the
    time of the call, and the line typed as comment is appended to the
    test review log with its surrounding blanks removed, unless it is
    empty or blank, in which case the log is left as it is. *)
Theorem approve_tests_logs_comment
    (line : string) (now : string) (h : Helper) (f : string)
    (t : WorkflowTracker) :
  NoDup (keys (workflow_status h)) ->
  get_current_file (workflow_status h) = Ok (Some f) ->
  f <> "" ->
  get f (workflow_status h) = Some t ->
  exists h' t',
    do_approve_tests line now h = Ok (h', [])
    /\ get f (workflow_status h') = Some t'
    /\ workflow_state t' = TESTS_REVIEWED
    /\ status t' = FS_TESTS_REVIEWED
    /\ last_updated t' = now
    /\ test_review_comments t'
       = test_review_comments t
         ++ (if String.eqb (strip line) "" then [] else [strip line])
    /\ implementation_review_comments t'
       = implementation_review_comments t.
Proof.
  intros Hnd Hc Hf Ht.
  destruct (@invoke_current (ApproveTests (optional_comment line)) now
              h f t Hnd Hc Hf Ht) as (h' & Hinv & Ht' & _ & _ & Hnext).
  exists h'. eexists. unfold do_approve_tests.
  cbn [invoke] in Hinv. rewrite Hinv. cbn [bind].
  split; [exact Hnext|]. split; [exact Ht'|].
  unfold optional_comment.
  destruct (String.eqb (strip line) "") eqn:Hblank; cbn.
  - rewrite app_nil_r. repeat split.
  - rewrite Hblank. cbn. repeat split.
Qed.

Lemma approve_tests_logs_comment_witness :
  exists h' t',
    do_approve_tests "  looks right " "t2" tests_provided_helper
    = Ok (h', [])
    /\ get "src/utils/types.rs" (workflow_status h') = Some t'
    /\ workflow_state t' = TESTS_REVIEWED
    /\ status t' = FS_TESTS_REVIEWED
    /\ last_updated t' = "t2"
    /\ test_review_comments t' = [] ++ ["looks right"]
    /\ implementation_review_comments t' = [].
Proof.
  apply (@approve_tests_logs_comment "  looks right " "t2"
           tests_provided_helper "src/utils/types.rs"
           (mkTracker "src/utils/types.rs" "tests/utils/types_tests.rs"
              (Some "examples/types_usage.rs") FS_TESTS_WRITTEN BASIC
              TESTS_PROVIDED (Some "7") "t1" [] [] [] [] [] [] [])).
  - exact QToolsProject_files_distinct.
  - vm_compute. reflexivity.
  - discriminate.
  - vm_compute. reflexivity.
Defined.

(** X10.  The command [request_test_changes] with a comment that is not
    blank sends the current file back to [ISSUE_CREATED], appends the
    comment, without its surrounding blanks, to the test review log, sets
    the time stamp, and returns without a message; the file stays the
    current file. *)
Theorem request_test_changes_rolls_back
    (line : string) (now : string) (h : Helper) (f : string)
    (t : WorkflowTracker) :
  NoDup (keys (workflow_status h)) ->
  get_current_file (workflow_status h) = Ok (Some f) ->
  f <> "" ->
  get f (workflow_status h) = Some t ->
  strip line <> "" ->
  exists h' t',
    do_request_test_changes line now h = Ok (h', [])
    /\ get f (workflow_status h') = Some t'
    /\ workflow_state t' = ISSUE_CREATED
    /\ status t' = status t
    /\ issue_number t' = issue_number t
    /\ last_updated t' = now
    /\ test_review_comments t' = test_review_comments t ++ [strip line]
    /\ get_current_file (workflow_status h') = Ok (Some f).
Proof.
  intros Hnd Hc Hf Ht Hline.
  destruct (@invoke_current (RequestTestChanges (strip line)) now
              h f t Hnd Hc Hf Ht) as (h' & Hinv & Ht' & Hc' & _ & Hnext).
  exists h'. eexists. unfold do_request_test_changes.
  destruct (String.eqb_spec (strip line) ""); [contradiction|].
  cbn [helper_method String.eqb Ascii.eqb Bool.eqb bind].
  cbn [invoke] in Hinv.
  change (helper_method "request_test_changes") with (Ok request_test_changes).
  cbn [bind]. rewrite Hinv. cbn [bind].
  split; [exact Hnext|]. split; [exact Ht'|]. cbn. repeat split.
  exact Hc'.
Qed.

Lemma request_test_changes_rolls_back_witness :
  exists h' t',
    do_request_test_changes " cover the empty series" "t2"
      tests_provided_helper = Ok (h', [])
    /\ get "src/utils/types.rs" (workflow_status h') = Some t'
    /\ workflow_state t' = ISSUE_CREATED
    /\ status t' = FS_TESTS_WRITTEN
    /\ issue_number t' = Some "7"
    /\ last_updated t' = "t2"
    /\ test_review_comments t' = [] ++ ["cover the empty series"]
    /\ get_current_file (workflow_status h') = Ok (Some "src/utils/types.rs").
Proof.
  apply (@request_test_changes_rolls_back " cover the empty series" "t2"
           tests_provided_helper "src/utils/types.rs"
           (mkTracker "src/utils/types.rs" "tests/utils/types_tests.rs"
              (Some "examples/types_usage.rs") FS_TESTS_WRITTEN BASIC
              TESTS_PROVIDED (Some "7") "t1" [] [] [] [] [] [] [])).
  - exact QToolsProject_files_distinct.
  - vm_compute. reflexivity.
  - discriminate.
  - vm_compute. reflexivity.
  - vm_compute. discriminate.
Defined.

(** ** The next action *)

Lemma current_record_unfinished ws f t :
  NoDup (keys ws) ->
  get_current_file ws = Ok (Some f) ->
  get f ws = Some t ->
  workflow_state t <> COMPLETED.
Proof.
  intros Hnd Hc Ht.
  destruct (current_file_has_record _ Hc) as (t0 & Hin & Hundone).
  rewrite (@in_get _ _ f t0 Hnd Hin) in Ht. injection Ht as <-.
  intros Hdone. apply is_completed_iff in Hdone. congruence.
Qed.

Lemma get_next_action_known h f t :
  NoDup (keys (workflow_status h)) ->
  get_current_file (workflow_status h) = Ok (Some f) ->
  f <> "" ->
  get f (workflow_status h) = Some t ->
  workflow_state t <> PENDING \/ In f (keys (project h)) ->
  exists entry,
    workflow_sequence (workflow_state t) = Ok entry
    /\ get_next_action h = Ok (fst entry)
    /\ (fst entry = "Create GitHub Issue" <-> workflow_state t = PENDING).
Proof.
  intros Hnd Hc Hf Ht Hknown.
  assert (Hundone := current_record_unfinished _ Hnd Hc Ht).
  unfold get_next_action. rewrite Hc. cbn [bind].
  apply no_file_some in Hf. rewrite Hf. cbn [str_of].
  unfold getitem at 1. rewrite Ht. cbn [bind].
  destruct (workflow_state t) eqn:Hw;
    try (eexists; split; [reflexivity|];
         cbn [workflow_sequence bind fst snd];
         unfold get_test_request_instructions, get_static_instructions,
           getitem; try rewrite Ht; cbn [bind];
         split; [reflexivity|split; discriminate]).
  - destruct Hknown as [Hne|Hin]; [now elim Hne|].
    destruct (key_has_value _ _ Hin) as (info & Hinfo).
    eexists. split; [reflexivity|]. cbn [workflow_sequence bind fst snd].
    unfold get_issue_creation_instructions, getitem.
    rewrite Ht, Hinfo. cbn [bind]. split; [reflexivity|now split].
  - now elim Hundone.
Qed.

(** X11.  [get_next_action] raises [KeyError] for a current file that is
    [PENDING] and not in the registry, because the instructions for
    creating the issue read its description from the registry: a state
    file with such a record stops the program at start-up. *)
Theorem next_action_unknown_pending_raises
    (h : Helper) (f : string) (t : WorkflowTracker) :
  get_current_file (workflow_status h) = Ok (Some f) ->
  f <> "" ->
  get f (workflow_status h) = Some t ->
  workflow_state t = PENDING ->
  get f (project h) = None ->
  get_next_action h = Raise (KeyError f)
  /\ do_status h = Raise (KeyError f).
Proof.
  intros Hc Hf Ht Hw Hmissing.
  assert (H : get_next_action h = Raise (KeyError f)).
  { unfold get_next_action. rewrite Hc. cbn [bind].
    apply no_file_some in Hf. rewrite Hf. cbn [str_of].
    unfold getitem at 1. rewrite Ht. cbn [bind]. rewrite Hw.
    cbn [workflow_sequence bind fst snd].
    unfold get_issue_creation_instructions, getitem.
    now rewrite Ht, Hmissing. }
  split; [exact H|]. unfold do_status, show_progress. now rewrite H.
Qed.

Lemma next_action_unknown_pending_raises_witness :
  (get_next_action (helper_of_data unknown_pending_data)
   = Raise (KeyError "src/new.rs")
   /\ do_status (helper_of_data unknown_pending_data)
      = Raise (KeyError "src/new.rs"))
  /\ main (Some (Parsed unknown_pending_data)) (always "t1") = Exited 1.
Proof.
  split; [|vm_compute; reflexivity].
  apply (@next_action_unknown_pending_raises
           (helper_of_data unknown_pending_data) "src/new.rs"
           (mkTracker "src/new.rs" "" None FS_PENDING BASIC PENDING None
              "t0" [] [] [] [] [] [] [])).
  - vm_compute. reflexivity.
  - discriminate.
  - vm_compute. reflexivity.
  - reflexivity.
  - vm_compute. reflexivity.
Defined.

(** X12.  For a current file that is in the registry, or is past
    [PENDING], [get_next_action] does not raise and returns the action
    name that [workflow_sequence] holds for the gate of its record; the
    name is "Create GitHub Issue" exactly when the gate is [PENDING]. *)
Theorem next_action_follows_gate
    (h : Helper) (f : string) (t : WorkflowTracker) :
  NoDup (keys (workflow_status h)) ->
  get_current_file (workflow_status h) = Ok (Some f) ->
  f <> "" ->
  get f (workflow_status h) = Some t ->
  workflow_state t <> PENDING \/ In f (keys (project h)) ->
  exists name getter,
    workflow_sequence (workflow_state t) = Ok (name, getter)
    /\ get_next_action h = Ok name
    /\ (name = "Create GitHub Issue" <-> workflow_state t = PENDING).
Proof.
  intros Hnd Hc Hf Ht Hknown.
  destruct (get_next_action_known _ Hnd Hc Hf Ht Hknown)
    as ([name getter] & Hseq & Hact & Hiff).
  exists name, getter. auto.
Qed.

Lemma next_action_follows_gate_witness :
  exists name getter,
    workflow_sequence TESTS_PROVIDED = Ok (name, getter)
    /\ get_next_action tests_provided_helper = Ok name
    /\ (name = "Create GitHub Issue" <-> TESTS_PROVIDED = PENDING).
Proof.
  apply (@next_action_follows_gate tests_provided_helper
           "src/utils/types.rs"
           (mkTracker "src/utils/types.rs" "tests/utils/types_tests.rs"
              (Some "examples/types_usage.rs") FS_TESTS_WRITTEN BASIC
              TESTS_PROVIDED (Some "7") "t1" [] [] [] [] [] [] [])).
  - exact QToolsProject_files_distinct.
  - vm_compute. reflexivity.
  - discriminate.
  - vm_compute. reflexivity.
  - left. discriminate.
Defined.

(** ** The [issue] command *)

(** X13.  The command [issue] with a number is refused when the current
    file is past [PENDING]: it prints that the current step is not issue
    creation and leaves the helper and the state file as they are, so an
    issue number that was recorded is not overwritten from the shell. *)
Theorem issue_refused_after_pending
    (arg : string) (now : string) (h : Helper) (f : string)
    (t : WorkflowTracker) :
  NoDup (keys (workflow_status h)) ->
  get_current_file (workflow_status h) = Ok (Some f) ->
  f <> "" ->
  get f (workflow_status h) = Some t ->
  workflow_state t <> PENDING ->
  arg <> "" ->
  do_issue arg now h
  = Ok (h, ["Current step is not issue creation. Type 'next' to see current step."]).
Proof.
  intros Hnd Hc Hf Ht Hw Harg.
  destruct (get_next_action_known _ Hnd Hc Hf Ht (or_introl Hw))
    as (entry & _ & Hact & Hiff).
  apply do_issue_refuses_other_steps with (fst entry); auto.
  intros Hname. apply Hiff in Hname. contradiction.
Qed.

Lemma issue_refused_after_pending_witness :
  do_issue "8" "t2" tests_provided_helper
  = Ok (tests_provided_helper,
        ["Current step is not issue creation. Type 'next' to see current step."]).
Proof.
  apply (@issue_refused_after_pending "8" "t2" tests_provided_helper
           "src/utils/types.rs"
           (mkTracker "src/utils/types.rs" "tests/utils/types_tests.rs"
              (Some "examples/types_usage.rs") FS_TESTS_WRITTEN BASIC
              TESTS_PROVIDED (Some "7") "t1" [] [] [] [] [] [] [])).
  - exact QToolsProject_files_distinct.
  - vm_compute. reflexivity.
  - discriminate.
  - vm_compute. reflexivity.
  - discriminate.
  - discriminate.
Defined.

(** X14.  The command [issue] with a number, when the current file is
    [PENDING] and in the registry, stores the number as the issue of the
    record, moves the gate to [ISSUE_CREATED], sets the time stamp and
    returns without a message; the status stays what it was and the
    review logs are untouched. *)
Theorem issue_recorded_when_pending
    (arg : string) (now : string) (h : Helper) (f : string)
    (t : WorkflowTracker) :
  NoDup (keys (workflow_status h)) ->
  get_current_file (workflow_status h) = Ok (Some f) ->
  f <> "" ->
  get f (workflow_status h) = Some t ->
  workflow_state t = PENDING ->
  In f (keys (project h)) ->
  arg <> "" ->
  exists h' t',
    do_issue arg now h = Ok (h', [])
    /\ get f (workflow_status h') = Some t'
    /\ issue_number t' = Some arg
    /\ workflow_state t' = ISSUE_CREATED
    /\ last_updated t' = now
    /\ status t' = status t
    /\ test_review_comments t' = test_review_comments t
    /\ in_sync h'.
Proof.
  intros Hnd Hc Hf Ht Hw Hin Harg.
  destruct (get_next_action_known _ Hnd Hc Hf Ht (or_intror Hin))
    as (entry & _ & Hact & Hiff).
  destruct (@invoke_current (RecordIssue arg) now h f t Hnd Hc Hf Ht)
    as (h' & Hinv & Ht' & _ & _ & Hnext).
  assert (Hsync : in_sync h').
  { assert (H := Hinv). rewrite invoke_on_current in H.
    apply on_current_ok in H.
    destruct H as [[Hb _]|[_ (f' & _ & _ & ->)]]; [discriminate|].
    reflexivity. }
  exists h'. eexists. unfold do_issue.
  destruct (String.eqb_spec arg ""); [contradiction|].
  rewrite Hact. cbn [bind].
  rewrite (proj2 Hiff Hw).
  change (negb (String.eqb "Create GitHub Issue" "Create GitHub Issue"))
    with false. cbn iota.
  cbn [invoke] in Hinv. rewrite Hinv. cbn [bind].
  split; [exact Hnext|]. split; [exact Ht'|]. cbn. repeat split.
  exact Hsync.
Qed.

Lemma issue_recorded_when_pending_witness :
  exists h' t',
    do_issue "7" "t1" fresh_helper = Ok (h', [])
    /\ get "src/utils/types.rs" (workflow_status h') = Some t'
    /\ issue_number t' = Some "7"
    /\ workflow_state t' = ISSUE_CREATED
    /\ last_updated t' = "t1"
    /\ status t' = FS_PENDING
    /\ test_review_comments t' = []
    /\ in_sync h'.
Proof.
  apply (@issue_recorded_when_pending "7" "t1" fresh_helper
           "src/utils/types.rs"
           (mkTracker "src/utils/types.rs" "tests/utils/types_tests.rs"
              (Some "examples/types_usage.rs") FS_PENDING BASIC
              PENDING None "t0" [] [] [] [] [] [] [])).
  - exact QToolsProject_files_distinct.
  - vm_compute. reflexivity.
  - discriminate.
  - vm_compute. reflexivity.
  - reflexivity.
  - simpl. auto.
  - discriminate.
Defined.

(** ** Repeated rounds of review *)

(** X15.  Rounds of "tests received, changes requested" on the current
    file accumulate: after one round per comment, the test review log is
    the old log followed by the comments in the order they were given, the
    issue number and the implementation review log are unchanged, and,
    if there was at least one round, the gate is [ISSUE_CREATED] and the
    status [tests_written]. *)
Theorem rollback_rounds_accumulate (comments : list string) (now : string) :
  forall (h : Helper) (f : string) (t : WorkflowTracker),
    NoDup (keys (workflow_status h)) ->
    get_current_file (workflow_status h) = Ok (Some f) ->
    f <> "" ->
    get f (workflow_status h) = Some t ->
    exists h' t',
      invoke_all (rollback_rounds comments) now h = Ok h'
      /\ get f (workflow_status h') = Some t'
      /\ test_review_comments t' = test_review_comments t ++ comments
      /\ implementation_review_comments t' = implementation_review_comments t
      /\ issue_number t' = issue_number t
      /\ (comments <> [] ->
          workflow_state t' = ISSUE_CREATED /\ status t' = FS_TESTS_WRITTEN).
Proof.
  induction comments as [|c comments IH]; intros h f t Hnd Hc Hf Ht.
  - exists h, t. cbn. rewrite app_nil_r.
    split; [reflexivity|]. split; [exact Ht|].
    split; [reflexivity|]. split; [reflexivity|]. split; [reflexivity|].
    intros H. now elim H.
  - destruct (@invoke_current RecordTests now h f t Hnd Hc Hf Ht)
      as (h1 & Hinv1 & Ht1 & Hc1 & Hnd1 & _).
    destruct (@invoke_current (RequestTestChanges c) now h1 f _
                Hnd1 Hc1 Hf Ht1)
      as (h2 & Hinv2 & Ht2 & Hc2 & Hnd2 & _).
    destruct (IH h2 f _ Hnd2 Hc2 Hf Ht2)
      as (h' & t' & Hrun & Ht' & Hlog & Himpl & Hissue & Hgate).
    exists h', t'. split.
    + cbn [rollback_rounds flat_map app invoke_all].
      rewrite Hinv1. cbn [bind snd]. rewrite Hinv2. cbn [bind snd].
      exact Hrun.
    + split; [exact Ht'|]. cbn in Hlog, Himpl, Hissue.
      split; [now rewrite Hlog, <- app_assoc|].
      split; [exact Himpl|]. split; [exact Hissue|].
      intros _. destruct comments as [|c' comments].
      * cbn in Hrun. injection Hrun as <-.
        rewrite Ht2 in Ht'. injection Ht' as <-. split; reflexivity.
      * apply Hgate. discriminate.
Qed.

Lemma rollback_rounds_accumulate_witness :
  exists h' t',
    invoke_all (rollback_rounds ["too few cases"; "name the tests"]) "t2"
      tests_provided_helper = Ok h'
    /\ get "src/utils/types.rs" (workflow_status h') = Some t'
    /\ test_review_comments t' = [] ++ ["too few cases"; "name the tests"]
    /\ implementation_review_comments t' = []
    /\ issue_number t' = Some "7"
    /\ (["too few cases"; "name the tests"] <> [] ->
        workflow_state t' = ISSUE_CREATED /\ status t' = FS_TESTS_WRITTEN).
Proof.
  apply (@rollback_rounds_accumulate ["too few cases"; "name the tests"]
           "t2" tests_provided_helper "src/utils/types.rs"
           (mkTracker "src/utils/types.rs" "tests/utils/types_tests.rs"
              (Some "examples/types_usage.rs") FS_TESTS_WRITTEN BASIC
              TESTS_PROVIDED (Some "7") "t1" [] [] [] [] [] [] [])).
  - exact QToolsProject_files_distinct.
  - vm_compute. reflexivity.
  - discriminate.
  - vm_compute. reflexivity.
Defined.

(** ** The forward path *)

(** X16.  The five forward calls, made in order on a current file in
    whatever gate, leave its record in [IMPLEMENTATION_REVIEWED] with
    status [code_reviewed] and the issue number given; the file is still
    the current file, and the next action is "Get Documentation from
    Claude". *)
Theorem forward_path_ends_at_documentation
    (issue : string) (tests_comment impl_comment : option string)
    (now : string) (h : Helper) (f : string) (t : WorkflowTracker) :
  NoDup (keys (workflow_status h)) ->
  get_current_file (workflow_status h) = Ok (Some f) ->
  f <> "" ->
  get f (workflow_status h) = Some t ->
  exists h' t',
    invoke_all [RecordIssue issue; RecordTests; ApproveTests tests_comment;
                RecordImplementation; ApproveImplementation impl_comment]
      now h = Ok h'
    /\ get f (workflow_status h') = Some t'
    /\ workflow_state t' = IMPLEMENTATION_REVIEWED
    /\ status t' = FS_CODE_REVIEWED
    /\ issue_number t' = Some issue
    /\ get_current_file (workflow_status h') = Ok (Some f)
    /\ get_next_action h' = Ok "Get Documentation from Claude".
Proof.
  intros Hnd Hc Hf Ht.
  destruct (@invoke_current (RecordIssue issue) now h f t Hnd Hc Hf Ht)
    as (h1 & Hinv1 & Ht1 & Hc1 & Hnd1 & _).
  destruct (@invoke_current RecordTests now h1 f _ Hnd1 Hc1 Hf Ht1)
    as (h2 & Hinv2 & Ht2 & Hc2 & Hnd2 & _).
  destruct (@invoke_current (ApproveTests tests_comment) now h2 f _
              Hnd2 Hc2 Hf Ht2)
    as (h3 & Hinv3 & Ht3 & Hc3 & Hnd3 & _).
  destruct (@invoke_current RecordImplementation now h3 f _
              Hnd3 Hc3 Hf Ht3)
    as (h4 & Hinv4 & Ht4 & Hc4 & Hnd4 & _).
  destruct (@invoke_current (ApproveImplementation impl_comment) now h4 f _
              Hnd4 Hc4 Hf Ht4)
    as (h5 & Hinv5 & Ht5 & Hc5 & Hnd5 & _).
  exists h5. eexists. split.
  - cbn [invoke_all]. rewrite Hinv1. cbn [bind snd]. rewrite Hinv2.
    cbn [bind snd]. rewrite Hinv3. cbn [bind snd]. rewrite Hinv4.
    cbn [bind snd]. rewrite Hinv5. reflexivity.
  - split; [exact Ht5|].
    assert (Hgate : workflow_state
                      (mutation (ApproveImplementation impl_comment) now
                         (mutation RecordImplementation now
                            (mutation (ApproveTests tests_comment) now
                               (mutation RecordTests now
                                  (mutation (RecordIssue issue) now t)))))
                    = IMPLEMENTATION_REVIEWED)
      by apply mutation_sets_target.
    split; [exact Hgate|].
    split; [cbn; destruct (truthy impl_comment); reflexivity|].
    split; [cbn; destruct (truthy impl_comment), (truthy tests_comment);
            reflexivity|].
    split; [exact Hc5|].
    destruct (get_next_action_known _ Hnd5 Hc5 Hf Ht5)
      as (entry & Hseq & Hact & _).
    + left. rewrite Hgate. discriminate.
    + rewrite Hgate in Hseq. cbn in Hseq. injection Hseq as <-.
      exact Hact.
Qed.

Lemma forward_path_ends_at_documentation_witness :
  exists h' t',
    invoke_all [RecordIssue "7"; RecordTests; ApproveTests (Some "fine");
                RecordImplementation; ApproveImplementation None]
      "t1" fresh_helper = Ok h'
    /\ get "src/utils/types.rs" (workflow_status h') = Some t'
    /\ workflow_state t' = IMPLEMENTATION_REVIEWED
    /\ status t' = FS_CODE_REVIEWED
    /\ issue_number t' = Some "7"
    /\ get_current_file (workflow_status h') = Ok (Some "src/utils/types.rs")
    /\ get_next_action h' = Ok "Get Documentation from Claude".
Proof.
  apply (@forward_path_ends_at_documentation "7" (Some "fine") None "t1"
           fresh_helper "src/utils/types.rs"
           (mkTracker "src/utils/types.rs" "tests/utils/types_tests.rs"
              (Some "examples/types_usage.rs") FS_PENDING BASIC
              PENDING None "t0" [] [] [] [] [] [] [])).
  - exact QToolsProject_files_distinct.
  - vm_compute. reflexivity.
  - discriminate.
  - vm_compute. reflexivity.
Defined.

(** ** A blocked workflow *)

(** X17.  When every dependency id has a record and every unfinished
    record has an unfinished dependency, as happens when dependency lists
    form a cycle, no file is current: [get_current_file] returns [None],
    [get_next_action] reports "All Scenario 1 files completed!" although
    records are unfinished, and the recording methods return [False]
    and change nothing. *)
Theorem blocked_workflow_reports_completion
    (a : Action) (now : string) (h : Helper) :
  (forall k t d, In (k, t) (workflow_status h) -> In d (dependencies t) ->
                 In d (keys (workflow_status h))) ->
  (forall k t, In (k, t) (workflow_status h) ->
               workflow_state t <> COMPLETED ->
               exists d, In d (dependencies t)
                         /\ completed_in (workflow_status h) d = false) ->
  get_current_file (workflow_status h) = Ok None
  /\ get_next_action h = Ok "All Scenario 1 files completed!"
  /\ invoke a now h = Ok (false, h).
Proof.
  intros Hclosed Hblocked.
  assert (Hnone : get_current_file (workflow_status h) = Ok None).
  { unfold get_current_file, get_next_task.
    rewrite next_task_from_find by exact Hclosed. cbn [bind].
    match goal with
    | |- context [find ?p ?l] =>
        assert (Hfind : find p l = None); [|now rewrite Hfind]
    end.
    apply find_none_iff. intros [k t] Hin. cbn [snd].
    destruct (is_completed t) eqn:Hc; [reflexivity|]. cbn [negb andb].
    destruct (forallb (completed_in (workflow_status h)) (dependencies t))
      eqn:Hall; [|reflexivity].
    destruct (Hblocked k t Hin) as (d & Hd & Hundone).
    - intros Hdone. apply is_completed_iff in Hdone. congruence.
    - rewrite forallb_forall in Hall. rewrite (Hall d Hd) in Hundone.
      discriminate. }
  split; [exact Hnone|]. split.
  - unfold get_next_action. rewrite Hnone. reflexivity.
  - now apply invoke_without_current_file with None.
Qed.

Lemma blocked_workflow_reports_completion_witness :
  get_current_file (workflow_status (helper_of_data looping_data)) = Ok None
  /\ get_next_action (helper_of_data looping_data)
     = Ok "All Scenario 1 files completed!"
  /\ invoke RecordTests "t2" (helper_of_data looping_data)
     = Ok (false, helper_of_data looping_data).
Proof.
  apply (@blocked_workflow_reports_completion RecordTests "t2"
           (helper_of_data looping_data)).
  - intros k t d Hin Hd. vm_compute in Hin.
    repeat (destruct Hin as [[= <- <-]|Hin];
            [vm_compute in Hd; destruct Hd as [<-|[]]; vm_compute; tauto|]).
    contradiction.
  - intros k t Hin _. vm_compute in Hin.
    repeat (destruct Hin as [[= <- <-]|Hin];
            [eexists; split; [left; reflexivity|vm_compute; reflexivity]|]).
    contradiction.
Defined.
